(** * ai-codereviewer: the diff-to-review pipeline of [src/main.ts]

    A shallow embedding of the GitHub action's TypeScript source
    ([src/src/main.ts] and its Java/Spring prompt variant
    [src/unnamed/part_000]) together with the properties the specification
    states about it.

    - Strings are Rocq [string]s holding the UTF-8 bytes of the JavaScript
      string.
    - Values that come out of [JSON.parse] are dynamically typed: they are
      modelled by [JS.value], with JavaScript's rules for property access,
      truthiness, iteration and [Number(...)].
    - [async] functions run sequentially (every call is awaited), so they are
      functions in a state-and-exception monad whose state is the trace of
      the effects performed so far.
    - What the action talks to (the OpenAI endpoint, the GitHub REST API, the
      action inputs, the libraries [parse-diff] and [minimatch], the builtin
      [JSON.parse]) is a field of the record [Env]. *)

From Stdlib Require Import List String Ascii Bool Arith NArith ZArith QArith Lia.
From Stdlib Require Import DecimalString.
Import ListNotations.

Local Close Scope Q_scope.
Local Open Scope string_scope.
Local Open Scope list_scope.

(** ** JavaScript builtins used by the action *)

Module JS.

(** *** Exceptions and completion records *)

Record exn : Type := mkExn {
  exn_name : string;            (* [error.name] *)
  exn_status : option N         (* [error.status], set by octokit on HTTP errors *)
}.

Definition TypeError : exn := mkExn "TypeError" None.
Definition SyntaxError : exn := mkExn "SyntaxError" None.

(** The outcome of evaluating an expression: a value, or a thrown exception. *)
Inductive result (A : Type) : Type :=
| Return (a : A)
| Throw (e : exn).
Arguments Return {A} a.
Arguments Throw {A} e.

(** *** Strings *)

Definition code (c : ascii) : N := N_of_ascii c.

(** [WhiteSpace] and [LineTerminator] code points of ECMAScript, as UTF-8:
    one byte (TAB, LF, VT, FF, CR, SP), two bytes (U+00A0) and three bytes
    (U+1680, U+2000..U+200A, U+2028, U+2029, U+202F, U+205F, U+3000,
    U+FEFF). *)
Definition is_ws1 (a : ascii) : bool :=
  ((9 <=? code a) && (code a <=? 13))%N || (code a =? 32)%N.

Definition is_ws2 (a b : ascii) : bool :=
  ((code a =? 0xC2) && (code b =? 0xA0))%N.

Definition is_ws3 (a b c : ascii) : bool :=
  (((code a =? 0xE1) && (code b =? 0x9A) && (code c =? 0x80))
   || ((code a =? 0xE2) && (code b =? 0x80)
       && (((0x80 <=? code c) && (code c <=? 0x8A))
           || (code c =? 0xA8) || (code c =? 0xA9) || (code c =? 0xAF)))
   || ((code a =? 0xE2) && (code b =? 0x81) && (code c =? 0x9F))
   || ((code a =? 0xE3) && (code b =? 0x80) && (code c =? 0x80))
   || ((code a =? 0xEF) && (code b =? 0xBB) && (code c =? 0xBF)))%N.

(** [String.prototype.trimStart] *)
Fixpoint trimStart (s : string) : string :=
  match s with
  | EmptyString => s
  | String a r1 =>
      if is_ws1 a then trimStart r1
      else
        match r1 with
        | EmptyString => s
        | String b r2 =>
            if is_ws2 a b then trimStart r2
            else
              match r2 with
              | EmptyString => s
              | String c r3 => if is_ws3 a b c then trimStart r3 else s
              end
        end
  end.

(** A string made of white space only. *)
Definition blank (s : string) : bool :=
  match trimStart s with EmptyString => true | _ => false end.

(** [String.prototype.trimEnd]: the longest blank suffix is cut. *)
Fixpoint trimEnd (s : string) : string :=
  match s with
  | EmptyString => EmptyString
  | String a r => if blank s then EmptyString else String a (trimEnd r)
  end.

(** [String.prototype.trim] *)
Definition trim (s : string) : string := trimEnd (trimStart s).

(** [s.split(sep)] for a one-character separator: the pieces between the
    separators, so that an input without separator (the empty one too) gives
    one piece. *)
Fixpoint split (sep : ascii) (s : string) : list string :=
  match s with
  | EmptyString => [EmptyString]
  | String a r =>
      if Ascii.eqb a sep then EmptyString :: split sep r
      else
        match split sep r with
        | [] => [String a EmptyString]
        | piece :: pieces => String a piece :: pieces
        end
  end.

(** [pieces.join(sep)] on strings. *)
Definition join (sep : string) (pieces : list string) : string :=
  String.concat sep pieces.

(** [hay.includes(needle)] *)
Fixpoint includes (needle hay : string) : bool :=
  String.prefix needle hay
  || match hay with
     | String _ r => includes needle r
     | EmptyString => false
     end.

(** [s.length > 0] *)
Definition nonempty (s : string) : bool :=
  match s with EmptyString => false | _ => true end.

(** The code points of a string, as [for ... of] over a string yields them:
    a lead byte with the continuation bytes (0x80..0xBF) that follow it. *)
Definition is_continuation (a : ascii) : bool :=
  ((0x80 <=? code a) && (code a <=? 0xBF))%N.

Fixpoint codepoints (s : string) : list string :=
  match s with
  | EmptyString => []
  | String a r =>
      let starts_inside :=
        match r with String b _ => is_continuation b | EmptyString => false end in
      match codepoints r with
      | cp :: cps =>
          if starts_inside then String a cp :: cps
          else String a EmptyString :: cp :: cps
      | [] => [String a EmptyString]
      end
  end.

(** *** Numbers

    A Number is [NaN], an infinity, or a finite value.  A finite value is
    kept as the exact rational it denotes, in lowest terms: the rounding of
    the significand to binary64 is not modelled, and neither is the sign of
    zero.  Which numerals overflow to an infinity or underflow to zero is
    modelled (see [round_range]), so that the class of a Number (NaN,
    infinite, zero, finite non-zero), which is all the control flow of the
    action looks at, is the one JavaScript computes. *)
Inductive number : Type :=
| NaN
| Infinity (negative : bool)
| Finite (q : Q).

Definition of_Z (z : Z) : number := Finite (inject_Z z).
Definition of_N (n : N) : number := of_Z (Z.of_N n).

(** Half way between the largest binary64 and 2^1024: from there on a value
    rounds to an infinity. *)
Definition overflow_threshold : Z := (2 ^ 1024 - 2 ^ 970)%Z.

(** The value [m * 10^e] of a decimal numeral ([m >= 0]), rounded as far as
    its class goes: at most 2^-1075 gives zero, at least
    [overflow_threshold] gives an infinity. *)
Definition round_range (negative : bool) (m : Z) (e : Z) : number :=
  let sign (q : Q) := if negative then Qopp q else q in
  if (m =? 0)%Z then Finite 0%Q
  else if (0 <=? e)%Z then
    let v := (m * 10 ^ e)%Z in
    if (overflow_threshold <=? v)%Z then Infinity negative
    else Finite (sign (inject_Z v))
  else
    let d := (10 ^ (- e))%Z in
    if (overflow_threshold * d <=? m)%Z then Infinity negative
    else if (m * 2 ^ 1075 <=? d)%Z then Finite 0%Q
    else Finite (sign (Qred (Qmake m (Z.to_pos d)))).

(** The value of a digit in a radix up to 16. *)
Definition digit_value (radix : N) (a : ascii) : option N :=
  let c := code a in
  let v :=
    if ((48 <=? c) && (c <=? 57))%N then Some (c - 48)%N
    else if ((97 <=? c) && (c <=? 102))%N then Some (c - 87)%N
    else if ((65 <=? c) && (c <=? 70))%N then Some (c - 55)%N
    else None in
  match v with
  | Some d => if (d <? radix)%N then Some d else None
  | None => None
  end.

(** The longest run of digits at the front of [s]: its value continuing
    [acc], the number of digits read, and what follows. *)
Fixpoint digits (radix : N) (acc : N) (s : string) : N * nat * string :=
  match s with
  | EmptyString => (acc, 0, s)
  | String a r =>
      match digit_value radix a with
      | Some d =>
          let '(v, n, rest) := digits radix (acc * radix + d)%N r in
          (v, S n, rest)
      | None => (acc, 0, s)
      end
  end.

(** [ExponentPart], optional: [e] or [E], an optional sign, digits. *)
Definition exponent_part (s : string) : option (Z * string) :=
  match s with
  | String a r =>
      if (Ascii.eqb a "e" || Ascii.eqb a "E")%char then
        let '(negative, r') :=
          match r with
          | String b r1 =>
              if Ascii.eqb b "-" then (true, r1)
              else if Ascii.eqb b "+" then (false, r1)
              else (false, r)
          | EmptyString => (false, r)
          end in
        match digits 10 0 r' with
        | (_, O, _) => None
        | (v, _, rest) =>
            Some ((if negative then - Z.of_N v else Z.of_N v)%Z, rest)
        end
      else Some (0%Z, s)
  | EmptyString => Some (0%Z, s)
  end.

(** [StrUnsignedDecimalLiteral]: [Infinity], or digits with an optional
    fraction and exponent; at least one digit before or after the dot. *)
Definition unsigned_decimal (negative : bool) (s : string) : number :=
  if String.eqb s "Infinity" then Infinity negative
  else
    let '(int_value, int_digits, r) := digits 10 0 s in
    let '(mantissa, frac_digits, r') :=
      match r with
      | String a r1 =>
          if Ascii.eqb a "." then digits 10 int_value r1
          else (int_value, O, r)
      | EmptyString => (int_value, O, r)
      end in
    match (int_digits + frac_digits)%nat with
    | O => NaN
    | _ =>
        match exponent_part r' with
        | Some (e, EmptyString) =>
            round_range negative (Z.of_N mantissa) (e - Z.of_nat frac_digits)
        | _ => NaN
        end
    end.

(** [NonDecimalIntegerLiteral] after its [0x], [0o] or [0b] prefix. *)
Definition radix_literal (radix : N) (s : string) : number :=
  match digits radix 0 s with
  | (_, O, _) => NaN
  | (v, _, EmptyString) => round_range false (Z.of_N v) 0
  | _ => NaN
  end.

(** [StringToNumber]: white space is trimmed; the empty string is zero;
    a numeric literal gives its value; anything else gives [NaN]. *)
Definition StringToNumber (s : string) : number :=
  match trim s with
  | EmptyString => Finite 0%Q
  | String a r as t =>
      if Ascii.eqb a "-" then unsigned_decimal true r
      else if Ascii.eqb a "+" then unsigned_decimal false r
      else
        match r with
        | String b r1 =>
            if Ascii.eqb a "0" && (Ascii.eqb b "x" || Ascii.eqb b "X")
            then radix_literal 16 r1
            else if Ascii.eqb a "0" && (Ascii.eqb b "o" || Ascii.eqb b "O")
            then radix_literal 8 r1
            else if Ascii.eqb a "0" && (Ascii.eqb b "b" || Ascii.eqb b "B")
            then radix_literal 2 r1
            else unsigned_decimal false t
        | EmptyString => unsigned_decimal false t
        end
  end.

(** [Number.prototype.toString] on a line counter: a natural number below
    10^21 prints as its decimal numeral. *)
Definition toString (n : N) : string :=
  NilEmpty.string_of_uint (N.to_uint n).

#[local] Set Warnings "-register-all".

(** *** Dynamically typed values

    What [JSON.parse] returns, and [undefined]. An object is the list of its
    own properties; the first binding of a key is the live one. *)
Inductive value : Type :=
| VUndefined
| VNull
| VBool (b : bool)
| VNumber (n : number)
| VString (s : string)
| VArray (elements : list value)
| VObject (properties : list (string * value)).

Fixpoint own_property (key : string) (properties : list (string * value))
  : option value :=
  match properties with
  | [] => None
  | (k, v) :: rest => if String.eqb k key then Some v else own_property key rest
  end.

(** [v.key] for one of the keys the action reads ([reviews], [lineNumber],
    [reviewComment], [action], [repository], [number], [owner], [login],
    [name]), none of which a parsed value inherits from a prototype:
    reading a property of [null] or [undefined] throws a TypeError, an own
    property gives its value, and anything else gives [undefined]. *)
Definition get (v : value) (key : string) : result value :=
  match v with
  | VUndefined | VNull => Throw TypeError
  | VObject properties =>
      match own_property key properties with
      | Some x => Return x
      | None => Return VUndefined
      end
  | _ => Return VUndefined
  end.

(** [ToBoolean]: the falsy values are [undefined], [null], [false], zero,
    [NaN] and the empty string. *)
Definition truthy (v : value) : bool :=
  match v with
  | VUndefined | VNull => false
  | VBool b => b
  | VNumber NaN => false
  | VNumber (Infinity _) => true
  | VNumber (Finite q) => negb (Qeq_bool q 0%Q)
  | VString s => nonempty s
  | VArray _ | VObject _ => true
  end.

(** [v != null]: loose inequality, false on [null] and [undefined] only. *)
Definition differs_from_null (v : value) : bool :=
  match v with
  | VUndefined | VNull => false
  | _ => true
  end.

(** [v === "text"] *)
Definition strictly_equals_string (v : value) (text : string) : bool :=
  match v with
  | VString s => String.eqb s text
  | _ => false
  end.

(** [x === "text"] for [x] of type [string | undefined] *)
Definition same_string (x : option string) (text : string) : bool :=
  match x with
  | Some s => String.eqb s text
  | None => false
  end.

(** What [for (const x of v)] runs over: the elements of an array, the code
    points of a string; any other value is not iterable. *)
Definition iterate (v : value) : result (list value) :=
  match v with
  | VArray elements => Return elements
  | VString s => Return (map VString (codepoints s))
  | _ => Throw TypeError
  end.

(** Converting a parsed object to a primitive fails when it has an own
    property [toString] (it holds data, so it cannot be called, and the
    inherited [valueOf] returns the object itself); otherwise it prints as
    [[object Object]]. An array prints as its elements joined by commas, so
    printing it fails when printing one of its elements does. *)
Fixpoint unprintable (v : value) : bool :=
  match v with
  | VObject properties =>
      match own_property "toString" properties with
      | Some _ => true
      | None => false
      end
  | VArray elements => existsb unprintable elements
  | _ => false
  end.

(** [Number(v)] ([ToNumber]). An array is converted through its printed
    form: the empty array prints as the empty string; a one-element array
    prints as its element does ([null] and [undefined] as the empty string,
    a Number as a numeral that reads back as itself); with two elements or
    more the text holds a comma, which no numeric literal does. *)
Fixpoint ToNumber (v : value) : result number :=
  match v with
  | VUndefined => Return NaN
  | VNull => Return (Finite 0%Q)
  | VBool b => Return (Finite (if b then 1%Q else 0%Q))
  | VNumber n => Return n
  | VString s => Return (StringToNumber s)
  | VObject _ => if unprintable v then Throw TypeError else Return NaN
  | VArray elements =>
      match elements with
      | [] => Return (Finite 0%Q)
      | [element] =>
          match element with
          | VUndefined | VNull => Return (Finite 0%Q)
          | VBool _ => Return NaN
          | _ => ToNumber element
          end
      | _ => if existsb unprintable elements then Throw TypeError else Return NaN
      end
  end.

(** The values that are not objects. *)
Definition primitive (v : value) : bool :=
  match v with
  | VArray _ | VObject _ => false
  | _ => true
  end.

End JS.

Import JS.

(** ** Data model *)

(** *** [parse-diff]: files, chunks and changes

    A change is one line of a hunk. [ln] is the counter of an added or
    removed line, [ln1] and [ln2] the left and right counters of a context
    line; a field the parser did not set reads as [undefined] ([None]). *)
Inductive ChangeType : Type := add | del | normal.

Definition ChangeType_eqb (a b : ChangeType) : bool :=
  match a, b with
  | add, add | del, del | normal, normal => true
  | _, _ => false
  end.

Module Change.
Record t : Type := make {
  type : ChangeType;
  content : string;
  ln : option N;
  ln1 : option N;
  ln2 : option N
}.
End Change.

Module Chunk.
Record t : Type := make {
  content : string;              (* the hunk header, [@@ -a,b +c,d @@ ...] *)
  changes : list Change.t
}.
End Chunk.

Module File.
Record t : Type := make {
  to : option string;            (* [to?: string], the path after the change *)
  chunks : list Chunk.t
}.
End File.

(** *** The pull request

    [owner], [repo] and [pull_number] are read from the event's payload and
    handed on as they are. *)
Record PRDetails : Type := {
  owner : value;
  repo : value;
  pull_number : value;
  title : string;
  description : string;
  commit_id : string
}.

(** What the action reads of the answers of [octokit.pulls.get] and
    [octokit.pulls.listCommits]. *)
Record PullRequest : Type := {
  data_title : option string;
  data_body : option string          (* [string | null] *)
}.

Record Commit : Type := { sha : string }.

(** *** A review comment: [{ body, path, line }]

    [body] is whatever the model put under [reviewComment] and [path] is
    [file.to!], which is [undefined] when the file has no target path. *)
Record Comment : Type := {
  body : value;
  path : option string;
  line : number
}.

(** *** The chat completion endpoint *)
Record ChatMessage : Type := {
  role : string;
  message_content : string
}.

Module Completion.
Record Message : Type := { content : option string }.   (* [string | null] *)
Record Choice : Type := {
  finish_reason : string;
  message : option Message
}.
Record t : Type := { choices : list Choice }.
End Completion.

(** The body of [octokit.pulls.createReview]. *)
Record Review : Type := {
  review_owner : value;
  review_repo : value;
  review_pull_number : value;
  review_commit_id : string;
  review_comments : list Comment;
  review_event : string
}.

(** ** Effects *)

(** What the action writes with [console.log] and [console.error]. *)
Inductive LogEntry : Type :=
| MaxContextExceeded                  (* The maximum context length has been exceeded... *)
| ErrorLogged (error : exn) (partial : option string)
                                      (* Error: error content *)
| Commenting (line : number) (path : option string)
                                      (* Commenting on line ... in file ... *)
| LineNotFound (line : number) (path : option string)
                                      (* Line number ... not found in diff for file ... *)
| ReviewError (error : exn)           (* Error creating review comment: ... *)
| InvalidPositions                    (* One or more comments have invalid positions or lines. *)
| UnsupportedEvent (name : option string)
                                      (* Unsupported event: ... *)
| NoDiffFound                         (* No diff found *)
| NoComments                          (* No comments to post. *)
| Fatal (error : exn).                (* Error: ..., before [process.exit(1)] *)

(** The effects of a run, in the order they happen. *)
Inductive Event : Type :=
| Console (entry : LogEntry)
| ChatCompletionsCreate (messages : list ChatMessage)
| PullsGet (owner repo pull_number : value)
| PullsListCommits (owner repo pull_number : value)
| PullsGetDiff (owner repo pull_number : value)
| PullsCreateReview (review : Review).

(** The collaborators of the action: its inputs, the event file, the
    libraries it calls and the answers of the services it talks to. *)
Record Env : Type := {
  EXTRA_INSTRUCTIONS : string;        (* [core.getInput("EXTRA_INSTRUCTIONS")] *)
  exclude : string;                   (* [core.getInput("exclude")] *)
  GITHUB_EVENT_NAME : option string;  (* [process.env.GITHUB_EVENT_NAME] *)
  (* [readFileSync(process.env.GITHUB_EVENT_PATH, "utf8")]; the file does not
     change during the run *)
  event_file : result string;
  pulls_get : value -> value -> value -> result PullRequest;
  pulls_listCommits : value -> value -> value -> result (list Commit);
  pulls_get_diff : value -> value -> value -> result (option string);
  parseDiff : string -> result (list File.t);
  minimatch : string -> string -> bool;
  (* the answer to the k-th request sent to the model, k from 0 *)
  chat_completions_create : nat -> list ChatMessage -> result Completion.t;
  JSON_parse : string -> result value;
  pulls_createReview : Review -> result unit
}.

Definition Trace : Type := list Event.

(** Computations: from the trace so far to an outcome and the longer trace. *)
Definition M (A : Type) : Type := Trace -> result A * Trace.

Definition ret {A} (a : A) : M A := fun tr => (Return a, tr).

Definition throw {A} (e : exn) : M A := fun tr => (Throw e, tr).

Definition lift {A} (r : result A) : M A := fun tr => (r, tr).

Definition bind {A B} (m : M A) (k : A -> M B) : M B :=
  fun tr =>
    match m tr with
    | (Return a, tr') => k a tr'
    | (Throw e, tr') => (Throw e, tr')
    end.

(** [try { m } catch (error) { handler }] *)
Definition try_catch {A} (m : M A) (handler : exn -> M A) : M A :=
  fun tr =>
    match m tr with
    | (Return a, tr') => (Return a, tr')
    | (Throw e, tr') => handler e tr'
    end.

Definition emit (ev : Event) : M unit := fun tr => (Return tt, tr ++ [ev]).

Definition console (entry : LogEntry) : M unit := emit (Console entry).

Notation "'let*' x ':=' m 'in' k" := (bind m (fun x => k))
  (at level 10, x pattern, m at level 100, k at level 200).

(** How many requests the model has been sent so far. *)
Definition is_request (ev : Event) : bool :=
  match ev with ChatCompletionsCreate _ => true | _ => false end.

Definition requests (tr : Trace) : list Event := filter is_request tr.

Definition is_submission (ev : Event) : bool :=
  match ev with PullsCreateReview _ => true | _ => false end.

Definition submissions (tr : Trace) : list Event := filter is_submission tr.

Definition is_diff_fetch (ev : Event) : bool :=
  match ev with PullsGetDiff _ _ _ => true | _ => false end.

(** Events of [getPRDetails]. *)
Definition is_metadata_fetch (ev : Event) : bool :=
  match ev with PullsGet _ _ _ | PullsListCommits _ _ _ => true | _ => false end.

Definition is_console (ev : Event) : bool :=
  match ev with Console _ => true | _ => false end.

(** Events of the review loop: requests to the model and log lines. *)
Definition is_review_event (ev : Event) : bool :=
  is_console ev || is_request ev.

(** ** The prompt builder *)

(** [`${x}`] on a value that may be [undefined]. *)
Definition interpolate (x : option string) : string :=
  match x with Some s => s | None => "undefined" end.

Definition dq : string := String "034"%char EmptyString.
Definition nl : string := String "010"%char EmptyString.

(** The callback of [chunk.changes.map] in [createPrompt]. *)
Definition annotate (change : Change.t) : string :=
  let lineNumber := EmptyString in
  let lineNumber :=
    if ChangeType_eqb (Change.type change) add
       || ChangeType_eqb (Change.type change) del
    then
      match Change.ln change with
      | Some n => if (n =? 0)%N then EmptyString else toString n
      | None => EmptyString
      end
    else if ChangeType_eqb (Change.type change) normal then
      match Change.ln1 change with
      | Some n => if (n =? 0)%N then EmptyString else toString n
      | None => EmptyString
      end
    else lineNumber in
  lineNumber ++ " " ++ Change.content change.

Definition diffContent (chunk : Chunk.t) : string :=
  join nl (map annotate (Chunk.changes chunk)).

(** *** [src/main.ts] *)

Module MainTs.

(** The fixed part of the instructions: the template of [createPrompt] up to
    the place where [EXTRA_INSTRUCTIONS] is spliced in. *)
Definition reviewer_policy : string :=
  "Your task is to review pull requests. Instructions:
- Do not give positive comments or compliments.
- Provide comments and suggestions ONLY if there is something to improve, otherwise "
  ++ dq
  ++ "reviews"
  ++ dq
  ++ " should be an empty array.
- Write the comment in GitHub Markdown format.
- Use the given description only for the overall context and only comment the code.
- IMPORTANT: NEVER suggest adding comments to the code.
- never comment on file formatting and linting issues
- Always propose a code solution to the issue.
- Don't check package imports.
- Don't suggest adding comments.
".

Definition createPrompt (env : Env)
  (file : File.t) (chunk : Chunk.t) (prDetails : PRDetails) : string :=
  let diffContent := diffContent chunk in
  reviewer_policy
  ++ EXTRA_INSTRUCTIONS env
  ++ nl
  ++ nl
  ++ "Review the following code diff in the file "
  ++ dq
  ++ interpolate (File.to file)
  ++ dq
  ++ " and take the pull request title and description into account when writing the response.
  "
  ++ nl
  ++ "Pull request title: "
  ++ title prDetails
  ++ nl
  ++ "Pull request description:

---
"
  ++ description prDetails
  ++ nl
  ++ "---

Git diff to review:

```diff
"
  ++ Chunk.content chunk
  ++ nl
  ++ diffContent
  ++ nl
  ++ "```
".

(** [messages: [{ role: "system", content: prompt }]] in [getAIResponse]. *)
Definition request_messages (prompt : string) : list ChatMessage :=
  [ {| role := "system"; message_content := prompt |} ].

End MainTs.

(** *** The Java/Spring variant, [src/unnamed/part_000] *)

Module Part000.

Definition content : string :=
  "You are an expert AI code reviewer specializing in Java, Spring, and SQL. You will be provided with a pull request (PR) title, PR description, and the Git diff. Your task is to review the changes in the Git diff and identify potential issues, while demonstrating your in-depth knowledge of Spring.

- Focus exclusively on areas in the code where there might be a problem, but avoid mentioning issues that a compiler would catch, such as incorrect function calls.
- If the code is satisfactory, return an empty array—do not include any positive comments or compliments.
- The PR title and description are for context only and should not be commented on.
- Do not comment on file formatting, linting issues, suggest adding comments, or issues like null values in `getReferenceById` which never returns null but throws an exception.
- All comments should be written in GitHub Markdown format.

# Output Format

Return output in JSON format with an array containing comment objects. Each comment object should include:
- `lineNumber`: the line number of the issue.
- `reviewComment`: details of the concern in GitHub Markdown format.

# Examples

**Input:**
- PR Title: "
  ++ dq
  ++ "Fix login retry logic"
  ++ dq
  ++ nl
  ++ "- PR Description: "
  ++ dq
  ++ "Corrects the retry logic to prevent endless loops."
  ++ dq
  ++ nl
  ++ "- Git Diff:
  ```java
  @@ -10,5 +10,7 @@
  while (currentTry > MAX_TRIES) {
      // retry logic
  }
  ```

**Output:**
```
[
  {
    "
  ++ dq
  ++ "lineNumber"
  ++ dq
  ++ ": 2,
    "
  ++ dq
  ++ "reviewComment"
  ++ dq
  ++ ": "
  ++ dq
  ++ "The condition `currentTry > MAX_TRIES` is incorrect for the retry logic. It should be `currentTry < MAX_TRIES` to limit the number of tries."
  ++ dq
  ++ nl
  ++ "  }
]
```

(Note: Real examples may vary in length and complexity. Use placeholders to represent the context and structure of comments.)
`".

Definition createPrompt
  (file : File.t) (chunk : Chunk.t) (prDetails : PRDetails) : list ChatMessage :=
  let diffContent := diffContent chunk in
  let userMessage : string :=
    ("Please review my PR:

The title is:
"
    ++ title prDetails
    ++ nl
    ++ nl
    ++ "The description is: "
    ++ nl
    ++ "---
"
    ++ description prDetails
    ++ nl
    ++ "---

The git diff is:
```diff
"
    ++ Chunk.content chunk
    ++ nl
    ++ diffContent
    ++ nl
    ++ "```")%string in
  [ {| role := "system"; message_content := content |};
    {| role := "user"; message_content := userMessage |} ].

(** [messages: prompt] in [getAIResponse]. *)
Definition request_messages (prompt : list ChatMessage) : list ChatMessage :=
  prompt.

End Part000.

(** ** The pipeline

    [getAIResponse], [createComment], [analyzeCode], [createReviewComment]
    and [main] are the same in both source files but for the prompt: a string
    wrapped into one system message in [src/main.ts], a list of two messages
    in the variant. They are written once, over the prompt builder. *)

Section Pipeline.

Context {Prompt : Type}.
Variable createPrompt : File.t -> Chunk.t -> PRDetails -> Prompt.
Variable request_messages : Prompt -> list ChatMessage.
Variable env : Env.

(** [await openai.chat.completions.create({...})]: the request is recorded
    and answered by the environment. *)
Definition create (messages : list ChatMessage) : M Completion.t :=
  fun tr =>
    (chat_completions_create env (List.length (requests tr)) messages,
     tr ++ [ChatCompletionsCreate messages]).

(** [response?.choices[0].message?.content], the last argument of the
    [console.error] of the handler: [undefined] when [response] is [null],
    a TypeError when [choices] is empty. *)
Definition partial_content (response : option Completion.t)
  : result (option string) :=
  match response with
  | None => Return None
  | Some r =>
      match Completion.choices r with
      | [] => Throw TypeError
      | choice :: _ =>
          Return (match Completion.message choice with
                  | Some m => Completion.content m
                  | None => None
                  end)
      end
  end.

(** The [catch] block of [getAIResponse]; [response] is the variable of that
    name as it stands when the exception is caught. *)
Definition getAIResponse_catch (response : option Completion.t) (error : exn)
  : M value :=
  let* partial := lift (partial_content response) in
  let* _ := console (ErrorLogged error partial) in
  ret VNull.

(** [response.choices[0].message?.content?.trim() || "{}"] *)
Definition response_text (choice : Completion.Choice) : string :=
  let trimmed :=
    match Completion.message choice with
    | Some m =>
        match Completion.content m with
        | Some text => Some (trim text)
        | None => None
        end
    | None => None
    end in
  match trimmed with
  | Some text => if nonempty text then text else "{}"
  | None => "{}"
  end.

(** The statements of the [try] block that follow the request. *)
Definition getAIResponse_read (response : Completion.t) : M value :=
  match Completion.choices response with
  | [] => throw TypeError                (* [response.choices[0].finish_reason] *)
  | choice :: _ =>
      let finish_response := Completion.finish_reason choice in
      if String.eqb finish_response "length" then
        let* _ := console MaxContextExceeded in
        ret VNull
      else
        let res := response_text choice in
        let* parsed := lift (JSON_parse env res) in
        lift (get parsed "reviews")
  end.

Definition getAIResponse (prompt : Prompt) : M value :=
  fun tr =>
    match create (request_messages prompt) tr with
    | (Throw error, tr') => getAIResponse_catch None error tr'
    | (Return response, tr') =>
        try_catch (getAIResponse_read response)
                  (getAIResponse_catch (Some response)) tr'
    end.

(** The body of the loop of [createComment], with [comments] the array built
    so far. *)
Fixpoint createComment_loop (file : File.t) (aiResponses : list value)
  (comments : list Comment) : M (list Comment) :=
  match aiResponses with
  | [] => ret comments
  | aiResponse :: rest =>
      let* token := lift (get aiResponse "lineNumber") in
      let* lineNumber := lift (ToNumber token) in
      if differs_from_null (VNumber lineNumber) then
        let* _ := console (Commenting lineNumber (File.to file)) in
        let* reviewComment := lift (get aiResponse "reviewComment") in
        createComment_loop file rest
          (comments ++ [ {| body := reviewComment;
                            path := File.to file;
                            line := lineNumber |} ])
      else
        let* _ := console (LineNotFound lineNumber (File.to file)) in
        createComment_loop file rest comments
  end.

Definition createComment (file : File.t) (chunk : Chunk.t) (aiResponses : value)
  : M (list Comment) :=
  let* elements := lift (iterate aiResponses) in
  createComment_loop file elements [].

(** The inner loop of [analyzeCode]. *)
Fixpoint analyzeCode_chunks (file : File.t) (chunks : list Chunk.t)
  (prDetails : PRDetails) (comments : list Comment) : M (list Comment) :=
  match chunks with
  | [] => ret comments
  | chunk :: rest =>
      let prompt := createPrompt file chunk prDetails in
      let* aiResponse := getAIResponse prompt in
      if truthy aiResponse then
        let* newComments := createComment file chunk aiResponse in
        analyzeCode_chunks file rest prDetails (comments ++ newComments)
      else analyzeCode_chunks file rest prDetails comments
  end.

(** The outer loop of [analyzeCode]. *)
Fixpoint analyzeCode_files (parsedDiff : list File.t) (prDetails : PRDetails)
  (comments : list Comment) : M (list Comment) :=
  match parsedDiff with
  | [] => ret comments
  | file :: rest =>
      if same_string (File.to file) "/dev/null"
      then analyzeCode_files rest prDetails comments   (* Ignore deleted files *)
      else
        let* comments' :=
          analyzeCode_chunks file (File.chunks file) prDetails comments in
        analyzeCode_files rest prDetails comments'
  end.

Definition analyzeCode (parsedDiff : list File.t) (prDetails : PRDetails)
  : M (list Comment) :=
  analyzeCode_files parsedDiff prDetails [].

Definition createReviewComment (owner repo pull_number : value)
  (commit_id : string) (comments : list Comment) : M unit :=
  let review :=
    {| review_owner := owner; review_repo := repo;
       review_pull_number := pull_number; review_commit_id := commit_id;
       review_comments := comments; review_event := "COMMENT" |} in
  try_catch
    (let* _ := emit (PullsCreateReview review) in
     lift (pulls_createReview env review))
    (fun error =>
       let* _ := console (ReviewError error) in
       match exn_status error with
       | Some status =>
           if (status =? 422)%N then console InvalidPositions else ret tt
       | None => ret tt
       end).

Definition getPRDetails : M PRDetails :=
  let* text := lift (event_file env) in
  let* payload := lift (JSON_parse env text) in
  (* [const { repository, number } = ...] *)
  let* repository := lift (get payload "repository") in
  let* number := lift (get payload "number") in
  let* owner := lift (get repository "owner") in
  let* login := lift (get owner "login") in
  let* name := lift (get repository "name") in
  let* _ := emit (PullsGet login name number) in
  let* prResponse := lift (pulls_get env login name number) in
  let* _ := emit (PullsListCommits login name number) in
  let* commits := lift (pulls_listCommits env login name number) in
  (* [commitsResponse.data[commitsResponse.data.length - 1].sha] *)
  match rev commits with
  | [] => throw TypeError
  | latestCommit :: _ =>
      ret {| owner := login;
             repo := name;
             pull_number := number;
             title := match data_title prResponse with
                      | Some t => t
                      | None => EmptyString
                      end;
             description := match data_body prResponse with
                            | Some b => b
                            | None => EmptyString
                            end;
             commit_id := sha latestCommit |}
  end.

Definition getDiff (owner repo pull_number : value) : M (option string) :=
  let* _ := emit (PullsGetDiff owner repo pull_number) in
  lift (pulls_get_diff env owner repo pull_number).

(** [core.getInput("exclude").split(",").map(trim).filter(nonempty)] *)
Definition excludePatterns : list string :=
  filter (fun s => nonempty s) (map (fun s => trim s) (split "," (exclude env))).

(** [parsedDiff.filter(file => !excludePatterns.some(pattern =>
    minimatch(file.to ?? "", pattern)))] *)
Definition excluded (patterns : list string) (file : File.t) : bool :=
  existsb
    (fun pattern =>
       minimatch env
         (match File.to file with Some s => s | None => EmptyString end)
         pattern)
    patterns.

Definition filteredDiff (patterns : list string) (parsedDiff : list File.t)
  : list File.t :=
  filter (fun file => negb (excluded patterns file)) parsedDiff.

Definition main : M unit :=
  let* prDetails := getPRDetails in
  let* text := lift (event_file env) in
  let* eventData := lift (JSON_parse env text) in
  let* action := lift (get eventData "action") in
  if strictly_equals_string action "opened"
     || strictly_equals_string action "synchronize"
  then
    let* diff :=
      getDiff (owner prDetails) (repo prDetails) (pull_number prDetails) in
    match diff with
    | None | Some EmptyString => console NoDiffFound
    | Some diff =>
        let* parsedDiff := lift (parseDiff env diff) in
        let filteredDiff := filteredDiff excludePatterns parsedDiff in
        let* comments := analyzeCode filteredDiff prDetails in
        match comments with
        | _ :: _ =>
            createReviewComment (owner prDetails) (repo prDetails)
              (pull_number prDetails) (commit_id prDetails) comments
        | [] => console NoComments
        end
    end
  else console (UnsupportedEvent (GITHUB_EVENT_NAME env)).

(** [main().catch(error => { console.error(...); process.exit(1) })]: the
    exit code of the process and the effects of the run. *)
Definition run : N * Trace :=
  match main [] with
  | (Return _, tr) => (0%N, tr)
  | (Throw error, tr) => (1%N, tr ++ [Console (Fatal error)])
  end.

End Pipeline.

(** ** The line counters of [parse-diff] *)

Module ParseDiff.

(** [parse-diff] is an npm package, not part of the sources. This is how
    its parser numbers the lines of a hunk [@@ -a,b +c,d @@]: it keeps two
    counters, one for the old file that starts at [a] and one for the new
    file that starts at [c]. A removed line gets the old counter as its
    [ln], an added line the new counter as its [ln], a context line the old
    counter as [ln1] and the new one as [ln2]; each counter moves on after a
    line that used it. [lines] are the lines of the hunk with the kind the
    parser gives them; the marker line about a missing final newline is
    left out. *)
Fixpoint number (deleted added : N) (lines : list (ChangeType * string))
  : list Change.t :=
  match lines with
  | [] => []
  | (add, text) :: rest =>
      Change.make add text (Some added) None None
      :: number deleted (added + 1) rest
  | (del, text) :: rest =>
      Change.make del text (Some deleted) None None
      :: number (deleted + 1) added rest
  | (normal, text) :: rest =>
      Change.make normal text None (Some deleted) (Some added)
      :: number (deleted + 1) (added + 1) rest
  end.

Definition chunk (header : string) (oldStart newStart : N)
  (lines : list (ChangeType * string)) : Chunk.t :=
  Chunk.make header (number oldStart newStart lines).

End ParseDiff.

(** ** A model of [minimatch] for plain patterns *)

Module Minimatch.

(** One part of a pattern between slashes. *)
Inductive Part : Type :=
| Globstar                         (* a part that is exactly two stars *)
| Segment (pattern : string).

Definition starts_with (c : ascii) (s : string) : bool :=
  match s with
  | String a _ => Ascii.eqb a c
  | EmptyString => false
  end.

Fixpoint mentions (c : ascii) (s : string) : bool :=
  match s with
  | String a r => Ascii.eqb a c || mentions c r
  | EmptyString => false
  end.

(** The characters that start a construct this model leaves out: one-character
    wildcards, classes, braces, extended globs, escapes, negation, comments. *)
Definition special : string := "?[]{}()!+@\#|".

Fixpoint uses_special (s : string) : bool :=
  match s with
  | String a r => mentions a special || uses_special r
  | EmptyString => false
  end.

(** Runs of slashes count as one slash. *)
Fixpoint squeeze (s : string) : string :=
  match s with
  | String a r =>
      if Ascii.eqb a "/" && starts_with "/" r then squeeze r
      else String a (squeeze r)
  | EmptyString => EmptyString
  end.

Definition slashSplit (s : string) : list string := split "/" (squeeze s).

Definition part_of (s : string) : Part :=
  if String.eqb s "**" then Globstar else Segment s.

(** The patterns of the model: not empty, no special character, no part that
    is [.] or [..]. *)
Definition plain (pattern : string) : bool :=
  nonempty pattern
  && negb (uses_special pattern)
  && forallb (fun s => negb (String.eqb s "." || String.eqb s ".."))
             (slashSplit pattern).

(** A star stands for any run of characters of one path part. *)
Fixpoint wildcard (p : string) : string -> bool :=
  match p with
  | EmptyString => fun f => negb (nonempty f)
  | String c p' =>
      if Ascii.eqb c "*" then
        fix swallow (f : string) : bool :=
          wildcard p' f
          || match f with
             | String _ f' => swallow f'
             | EmptyString => false
             end
      else
        fun f =>
          match f with
          | String d f' => Ascii.eqb c d && wildcard p' f'
          | EmptyString => false
          end
  end.

(** A part without star matches itself only. A part with a star matches no
    empty name, no name that starts with a dot unless the part itself
    starts with a dot, and never the names [.] and [..]. *)
Definition segment_matches (p f : string) : bool :=
  if mentions "*" p then
    nonempty f
    && negb (starts_with "*" p && starts_with "." f)
    && negb (String.eqb f "." || String.eqb f "..")
    && wildcard p f
  else String.eqb p f.

(** [matchOne]: the parts of the pattern against the parts of the path. A
    globstar swallows any number of parts, none of which starts with a dot;
    when the pattern is used up the path may still end in a slash. *)
Fixpoint matchOne (pattern : list Part) : list string -> bool :=
  match pattern with
  | [] =>
      fun file =>
        match file with
        | [] => true
        | [f] => negb (nonempty f)
        | _ => false
        end
  | Globstar :: rest =>
      match rest with
      | [] =>
          fun file =>
            match file with
            | [] => false
            | _ => forallb (fun f => negb (starts_with "." f)) file
            end
      | _ =>
          fix swallow (file : list string) : bool :=
            match file with
            | [] => false
            | f :: file' =>
                matchOne rest file
                || (if starts_with "." f then false else swallow file')
            end
      end
  | Segment p :: rest =>
      fun file =>
        match file with
        | [] => false
        | f :: file' => segment_matches p f && matchOne rest file'
        end
  end.

(** Modelled from the spec: [minimatch] is an npm package, not part of the
    sources. Section 4.2 has the filter match with shell-glob semantics; this
    is [minimatch(path, pattern)] with the default options, as [main] calls
    it, on a plain pattern: a star stays within one part of the path, a
    globstar spans parts, and a pattern without slash is matched against the
    whole path (the option [matchBase] is off). [None] on a pattern the
    model leaves out. *)
Definition minimatch (path pattern : string) : option bool :=
  if plain pattern
  then Some (matchOne (map part_of (slashSplit pattern)) (slashSplit path))
  else None.

(** The matcher handed to the pipeline in the examples, which use plain
    patterns only; on a pattern the model leaves out it answers [false],
    which need not be the answer of the library. *)
Definition matcher (path pattern : string) : bool :=
  match minimatch path pattern with
  | Some b => b
  | None => false
  end.

End Minimatch.

(** ** The specification's wording *)

Module Spec.

(** Data model: the resolved line number of a diff line is the counter [ln]
    of an added or removed line and the left counter [ln1] of a context
    line. *)
Definition resolvedLineNumber (change : Change.t) : option N :=
  match Change.type change with
  | add | del => Change.ln change
  | normal => Change.ln1 change
  end.

(** Where a line of a hunk stands. A removed line and a context line are
    lines of the old file, an added line and a context line are lines of the
    new file; the number of a line in a file is the start of the hunk in
    that file plus the number of lines of that file that come [before] it in
    the hunk. *)
Definition inOldFile (line : ChangeType * string) : bool :=
  match fst line with
  | del | normal => true
  | add => false
  end.

Definition inNewFile (line : ChangeType * string) : bool :=
  match fst line with
  | add | normal => true
  | del => false
  end.

Definition oldFileLine (oldStart : N) (before : list (ChangeType * string)) : N :=
  oldStart + N.of_nat (List.length (filter inOldFile before)).

Definition newFileLine (newStart : N) (before : list (ChangeType * string)) : N :=
  newStart + N.of_nat (List.length (filter inNewFile before)).

(** A finding as the output schema has it: an object whose [lineNumber] is a
    primitive value. *)
Definition finding_shaped (v : value) : Prop :=
  exists properties token,
    v = VObject properties
    /\ own_property "lineNumber" properties = Some token
    /\ primitive token = true.

(** File Filter: an entry whose target path denotes no file is a deletion;
    the output retains the entries that are not deletions and whose path
    matches no exclusion pattern. *)
Definition isDeletion (file : File.t) : bool :=
  same_string (File.to file) "/dev/null".

Definition FileFilter (matches : string -> string -> bool)
  (patterns : list string) (entries : list File.t) : list File.t :=
  filter
    (fun file =>
       negb (isDeletion file)
       && negb (existsb
                  (matches (match File.to file with
                            | Some s => s
                            | None => EmptyString
                            end))
                  patterns))
    entries.

(** Review Aggregator: the (file, chunk) pairs in file-then-chunk order. *)
Definition pairs (entries : list File.t) : list (File.t * Chunk.t) :=
  flat_map (fun file => map (pair file) (File.chunks file)) entries.

(** Steps run one after the other, their outputs concatenated in that
    order. *)
Fixpoint concat_in_order {A} (steps : list (M (list A))) : M (list A) :=
  match steps with
  | [] => ret []
  | step :: rest =>
      let* first := step in
      let* others := concat_in_order rest in
      ret (first ++ others)
  end.

(** The output of a step put behind what was collected before it. *)
Definition collect {A} (before : list A) (step : M (list A)) : M (list A) :=
  let* new := step in
  ret (before ++ new).

(** Model Invoker, failure classification: the call fails in transport, or
    the response was cut at the token budget, or its text does not parse;
    with what the invoker logs in each case. *)
Inductive NoUsableFindings (env : Env) : result Completion.t -> LogEntry -> Prop :=
| transport_failure error :
    NoUsableFindings env (Throw error) (ErrorLogged error None)
| truncation choice others :
    Completion.finish_reason choice = "length" ->
    NoUsableFindings env
      (Return {| Completion.choices := choice :: others |})
      MaxContextExceeded
| parsing_failure choice others error :
    Completion.finish_reason choice <> "length" ->
    JSON_parse env (response_text choice) = Throw error ->
    NoUsableFindings env
      (Return {| Completion.choices := choice :: others |})
      (ErrorLogged error
         (match Completion.message choice with
          | Some m => Completion.content m
          | None => None
          end)).

Section Aggregator.

Context {Prompt : Type}.
Variable createPrompt : File.t -> Chunk.t -> PRDetails -> Prompt.
Variable request_messages : Prompt -> list ChatMessage.
Variable env : Env.

(** The request the pipeline sends for one pair. *)
Definition request (prDetails : PRDetails) (pair : File.t * Chunk.t) : Event :=
  ChatCompletionsCreate
    (request_messages (createPrompt (fst pair) (snd pair) prDetails)).

(** One pair through the prompt builder, the model invoker and the comment
    mapper: the mapper's output, or nothing when the invoker has no usable
    findings. *)
Definition review (prDetails : PRDetails) (pair : File.t * Chunk.t)
  : M (list Comment) :=
  let* findings :=
    getAIResponse request_messages env
      (createPrompt (fst pair) (snd pair) prDetails) in
  if truthy findings then createComment (fst pair) (snd pair) findings
  else ret [].

End Aggregator.

(** [kept] is [entries] with some entries dropped: nothing added, nothing
    changed, nothing reordered. *)
Inductive Dropped {A} : list A -> list A -> Prop :=
| dropped_nil : Dropped [] []
| dropped_keep x kept entries : Dropped kept entries -> Dropped (x :: kept) (x :: entries)
| dropped_drop x kept entries : Dropped kept entries -> Dropped kept (x :: entries).

End Spec.

(** ** Inputs of the examples *)

Module Examples.

Definition pr : PRDetails :=
  {| owner := VString "octo"; repo := VString "shop";
     pull_number := VNumber (of_N 7);
     title := "Add totals"; description := "Sums the cart.";
     commit_id := "abc123" |}.

(** The payload of a [pull_request] event, as text and parsed. *)
Definition event_text (action : string) : string :=
  "{" ++ dq ++ "action" ++ dq ++ ":" ++ dq ++ action ++ dq ++ ","
  ++ dq ++ "number" ++ dq ++ ":7,"
  ++ dq ++ "repository" ++ dq ++ ":{" ++ dq ++ "name" ++ dq ++ ":" ++ dq
  ++ "shop" ++ dq ++ "," ++ dq ++ "owner" ++ dq ++ ":{" ++ dq ++ "login" ++ dq
  ++ ":" ++ dq ++ "octo" ++ dq ++ "}}}".

Definition event (action : string) : value :=
  VObject [("action", VString action);
           ("number", VNumber (of_N 7));
           ("repository",
            VObject [("name", VString "shop");
                     ("owner", VObject [("login", VString "octo")])])].

Definition hunk : Chunk.t :=
  Chunk.make "@@ -4,2 +4,2 @@"
    [ Change.make normal " def total():" None (Some 4%N) (Some 4%N);
      Change.make del "-    x = 2" (Some 5%N) None None;
      Change.make add "+    x = 1" (Some 5%N) None None ].

(** A hunk whose sides start at different lines, as [parse-diff] numbers
    it. *)
Definition shifted : Chunk.t :=
  ParseDiff.chunk "@@ -10,2 +20,2 @@" 10 20
    [ (normal, " keep"); (del, "-old"); (add, "+new") ].

Definition entry (path : string) : File.t := File.make (Some path) [hunk].

Definition a_py : File.t := entry "a.py".
Definition removed : File.t := entry "/dev/null".
Definition readme_md : File.t := entry "readme.md".
Definition docs_readme_md : File.t := entry "docs/readme.md".
Definition src_app_ts : File.t := entry "src/app.ts".

(** A finding as the model writes it. *)
Definition finding (lineNumber reviewComment : value) : value :=
  VObject [("lineNumber", lineNumber); ("reviewComment", reviewComment)].

(** A stand-in for [JSON.parse] that knows the texts of a table and rejects
    any other text. *)
Fixpoint parse_table (table : list (string * value)) (text : string)
  : result value :=
  match table with
  | [] => Throw SyntaxError
  | (known, v) :: rest =>
      if String.eqb known text then Return v else parse_table rest text
  end.

Definition reviews_text : string :=
  "{" ++ dq ++ "reviews" ++ dq ++ ":[{" ++ dq ++ "lineNumber" ++ dq ++ ":5,"
  ++ dq ++ "reviewComment" ++ dq ++ ":" ++ dq
  ++ "Use a named constant instead of a magic number." ++ dq ++ "}]}".

Definition parse : string -> result value :=
  parse_table
    [ (event_text "opened", event "opened");
      (event_text "closed", event "closed");
      ("{}", VObject []);
      (reviews_text,
       VObject [("reviews",
                 VArray [finding (VNumber (of_N 5))
                           (VString "Use a named constant instead of a magic number.")])]) ].

(** A completion with one choice. *)
Definition completion (finish_reason : string) (text : option string)
  : Completion.t :=
  {| Completion.choices :=
       [ {| Completion.finish_reason := finish_reason;
            Completion.message := Some {| Completion.content := text |} |} ] |}.

(** An environment: the event's action, the exclusion input, the files of
    the diff and the answers of the model vary from example to example. *)
Definition world (action : string) (exclusions : string) (files : list File.t)
  (answers : nat -> list ChatMessage -> result Completion.t) : Env :=
  {| EXTRA_INSTRUCTIONS := "Prefer early returns.";
     exclude := exclusions;
     GITHUB_EVENT_NAME := Some "pull_request";
     event_file := Return (event_text action);
     pulls_get :=
       fun _ _ _ =>
         Return {| data_title := Some "Add totals";
                   data_body := Some "Sums the cart." |};
     pulls_listCommits :=
       fun _ _ _ => Return [ {| sha := "9f2c1d" |}; {| sha := "abc123" |} ];
     pulls_get_diff := fun _ _ _ => Return (Some "diff --git a/a.py b/a.py");
     parseDiff := fun _ => Return files;
     minimatch := Minimatch.matcher;
     chat_completions_create := answers;
     JSON_parse := parse;
     pulls_createReview := fun _ => Return tt |}.

Definition always (answer : result Completion.t)
  : nat -> list ChatMessage -> result Completion.t :=
  fun _ _ => answer.

Definition stop (text : string) : nat -> list ChatMessage -> result Completion.t :=
  always (Return (completion "stop" (Some text))).

(** A pull request that touches [a.py]; the model's text does not parse. *)
Definition garbled : Env := world "opened" EmptyString [a_py] (stop "Sure! Here is my review.").

(** The model answers with white space. *)
Definition silent : Env := world "opened" EmptyString [a_py] (stop (" " ++ nl ++ "  ")).

(** The model reports one finding. *)
Definition critical : Env := world "opened" EmptyString [a_py] (stop reviews_text).

(** The pull request was closed. *)
Definition closed : Env := world "closed" EmptyString [a_py] (stop reviews_text).

(** Markdown files are excluded. *)
Definition no_markdown : Env :=
  world "opened" " *.md ,," [readme_md; docs_readme_md; src_app_ts] (stop "{}").

(** The pull request was closed and its details cannot be fetched. *)
Definition offline : Env :=
  {| EXTRA_INSTRUCTIONS := EXTRA_INSTRUCTIONS closed;
     exclude := exclude closed;
     GITHUB_EVENT_NAME := GITHUB_EVENT_NAME closed;
     event_file := event_file closed;
     pulls_get := fun _ _ _ => Throw (mkExn "HttpError" (Some 503%N));
     pulls_listCommits := pulls_listCommits closed;
     pulls_get_diff := pulls_get_diff closed;
     parseDiff := parseDiff closed;
     minimatch := minimatch closed;
     chat_completions_create := chat_completions_create closed;
     JSON_parse := JSON_parse closed;
     pulls_createReview := pulls_createReview closed |}.

(** Nothing is excluded and the diff removes a file. *)
Definition removal : Env := world "opened" EmptyString [removed] (stop "{}").

End Examples.

(** ** Readings of the mapper and of a run *)

Module Mapper.

(** [v.key], with [undefined] where the read would throw. *)
Definition field (v : value) (key : string) : value :=
  match get v key with
  | Return x => x
  | Throw _ => VUndefined
  end.

(** [Number(v)], with [NaN] where the conversion would throw. *)
Definition number_of (v : value) : number :=
  match ToNumber v with
  | Return n => n
  | Throw _ => NaN
  end.

(** The record [createComment] pushes for a finding. *)
Definition comment_of (file : File.t) (finding : value) : Comment :=
  {| body := field finding "reviewComment";
     path := File.to file;
     line := number_of (field finding "lineNumber") |}.

(** The line [createComment] logs when it pushes a record. *)
Definition announcement (c : Comment) : Event :=
  Console (Commenting (line c) (path c)).

Definition is_announcement (file : File.t) (ev : Event) : Prop :=
  exists n, ev = Console (Commenting n (File.to file)).

End Mapper.

Module Run.

(** What a run does after it has fetched the pull request's details: it
    stops with log lines only; or it fetches the diff and reviews; or it
    fetches, reviews, submits one review and logs, and then it returns. *)
Inductive Shape : result unit -> Trace -> Prop :=
| stopped (r : result unit) (logs : Trace) :
    forallb is_console logs = true ->
    Shape r logs
| reviewed (r : result unit) (fetch : Event) (reviews : Trace) :
    is_diff_fetch fetch = true ->
    forallb is_review_event reviews = true ->
    Shape r (fetch :: reviews)
| submitted (fetch : Event) (reviews : Trace) (submission : Event) (logs : Trace) :
    is_diff_fetch fetch = true ->
    forallb is_review_event reviews = true ->
    is_submission submission = true ->
    forallb is_console logs = true ->
    Shape (Return tt) (fetch :: reviews ++ submission :: logs).

(** The review loop when the model answers as asked. *)
Section Answers.

Context {Prompt : Type}.
Variable createPrompt : File.t -> Chunk.t -> PRDetails -> Prompt.
Variable request_messages : Prompt -> list ChatMessage.
Variable env : Env.

(** The model answers the request [messages], sent as request number [k],
    with the findings [findings]: the first choice is not cut at the token
    budget and its text parses to an object that holds the array
    [findings] under [reviews]. *)
Definition answers_with (k : nat) (messages : list ChatMessage)
  (findings : list value) : Prop :=
  exists choice others properties,
    chat_completions_create env k messages
    = Return {| Completion.choices := choice :: others |}
    /\ Completion.finish_reason choice <> "length"
    /\ JSON_parse env (response_text choice) = Return (VObject properties)
    /\ own_property "reviews" properties = Some (VArray findings).

(** The requests of the pairs [visited], numbered from [k], are answered
    with the lists of [findings], one list for each pair, every finding an
    object with a primitive value under [lineNumber]. *)
Fixpoint all_answered (prDetails : PRDetails) (k : nat)
  (visited : list (File.t * Chunk.t)) (findings : list (list value)) : Prop :=
  match visited, findings with
  | [], [] => True
  | visit :: visited', found :: findings' =>
      answers_with k
        (request_messages (createPrompt (fst visit) (snd visit) prDetails)) found
      /\ Forall Spec.finding_shaped found
      /\ all_answered prDetails (S k) visited' findings'
  | _, _ => False
  end.

(** The comments for these findings, pair after pair. *)
Definition comments_of (visited : list (File.t * Chunk.t))
  (findings : list (list value)) : list Comment :=
  flat_map (fun answer => map (Mapper.comment_of (fst (fst answer))) (snd answer))
           (combine visited findings).

(** The events of the loop: for each pair its request, then the
    announcements of its comments. *)
Definition events_of (prDetails : PRDetails) (visited : list (File.t * Chunk.t))
  (findings : list (list value)) : Trace :=
  flat_map
    (fun answer =>
       Spec.request createPrompt request_messages prDetails (fst answer)
       :: map Mapper.announcement
              (map (Mapper.comment_of (fst (fst answer))) (snd answer)))
    (combine visited findings).

End Answers.

End Run.

(** ** Further environments *)

Module Cases.

Definition payload_text : string := Examples.event_text "opened".

(** A payload with an action and nothing else. *)
Definition bare_text : string :=
  "{" ++ dq ++ "action" ++ dq ++ ":" ++ dq ++ "opened" ++ dq ++ "}".

(** A response whose [reviews] is an object. *)
Definition object_text : string :=
  "{" ++ dq ++ "reviews" ++ dq ++ ":{}}".

Definition parse : string -> result value :=
  Examples.parse_table
    [ (payload_text, Examples.event "opened");
      (bare_text, VObject [("action", VString "opened")]);
      (object_text, VObject [("reviews", VObject [])]);
      ("null", VNull);
      ("{}", VObject []);
      (Examples.reviews_text,
       VObject [("reviews",
                 VArray [Examples.finding (VNumber (of_N 5))
                           (VString "Use a named constant instead of a magic number.")])]) ].

Definition env_of (payload : string) (exclusions : string)
  (pull : result PullRequest) (commits : result (list Commit))
  (diff : result (option string)) (files : list File.t)
  (answers : nat -> list ChatMessage -> result Completion.t)
  (submit : result unit) : Env :=
  {| EXTRA_INSTRUCTIONS := EmptyString;
     exclude := exclusions;
     GITHUB_EVENT_NAME := Some "pull_request";
     event_file := Return payload;
     pulls_get := fun _ _ _ => pull;
     pulls_listCommits := fun _ _ _ => commits;
     pulls_get_diff := fun _ _ _ => diff;
     parseDiff := fun _ => Return files;
     minimatch := Minimatch.matcher;
     chat_completions_create := answers;
     JSON_parse := parse;
     pulls_createReview := fun _ => submit |}.

Definition pull : result PullRequest :=
  Return {| data_title := Some "Add totals"; data_body := None |}.

Definition commits : result (list Commit) :=
  Return [ {| sha := "9f2c1d" |}; {| sha := "abc123" |} ].

Definition diff : result (option string) :=
  Return (Some "diff --git a/a.py b/a.py").

(** What [getPRDetails] returns in these environments, and what it asks. *)
Definition details : PRDetails :=
  {| owner := VString "octo"; repo := VString "shop";
     pull_number := VNumber (of_N 7);
     title := "Add totals"; description := EmptyString;
     commit_id := "abc123" |}.

Definition fetched : Trace :=
  [PullsGet (VString "octo") (VString "shop") (VNumber (of_N 7));
   PullsListCommits (VString "octo") (VString "shop") (VNumber (of_N 7))].

Definition fetch : Event :=
  PullsGetDiff (VString "octo") (VString "shop") (VNumber (of_N 7)).

(** The request for the chunk of [a.py], as [src/main.ts] sends it. *)
Definition request (env : Env) : Event :=
  ChatCompletionsCreate
    (MainTs.request_messages
       (MainTs.createPrompt env Examples.a_py Examples.hunk details)).

(** The usual run: one file, one finding, the review is accepted. *)
Definition usual : Env :=
  env_of payload_text EmptyString pull commits diff [Examples.a_py]
    (Examples.stop Examples.reviews_text) (Return tt).

(** The payload names no repository. *)
Definition bare : Env :=
  env_of bare_text EmptyString pull commits diff [Examples.a_py]
    (Examples.stop Examples.reviews_text) (Return tt).

(** The pull request has no commit. *)
Definition no_commits : Env :=
  env_of payload_text EmptyString pull (Return []) diff [Examples.a_py]
    (Examples.stop Examples.reviews_text) (Return tt).

(** The platform has no diff for the pull request. *)
Definition no_diff : Env :=
  env_of payload_text EmptyString pull commits (Return None) [Examples.a_py]
    (Examples.stop Examples.reviews_text) (Return tt).

(** The model answers with no choice at all. *)
Definition no_choice : Env :=
  env_of payload_text EmptyString pull commits diff [Examples.a_py]
    (Examples.always (Return {| Completion.choices := [] |})) (Return tt).

(** The model puts an object under [reviews]. *)
Definition object_reviews : Env :=
  env_of payload_text EmptyString pull commits diff [Examples.a_py]
    (Examples.stop object_text) (Return tt).

(** The model answers [null]. *)
Definition null_answer : Env :=
  env_of payload_text EmptyString pull commits diff [Examples.a_py]
    (Examples.stop "null") (Return tt).

(** The platform rejects the review: a comment is out of the diff. *)
Definition rejecting : Env :=
  env_of payload_text EmptyString pull commits diff [Examples.a_py]
    (Examples.stop Examples.reviews_text)
    (Throw (mkExn "HttpError" (Some 422%N))).

(** The exclusion input holds commas and blanks only. *)
Definition blank_exclusions : Env :=
  env_of payload_text (" , ," ++ nl) pull commits diff [Examples.a_py]
    (Examples.stop Examples.reviews_text) (Return tt).

(** The diff only removes a file and renames another without a hunk. *)
Definition nothing_to_review : Env :=
  env_of payload_text EmptyString pull commits diff
    [Examples.removed; File.make (Some "moved.py") []]
    (Examples.stop Examples.reviews_text) (Return tt).

End Cases.

(** ** Facts about strings and traces *)

Lemma append_assoc (a b c : string) : ((a ++ b) ++ c = a ++ (b ++ c))%string.
Proof.
  induction a as [|x a IH]; simpl; [reflexivity | now rewrite IH].
Qed.

(** A text lies within a longer one. *)
Lemma within_here (y : string) : exists before, y = (before ++ y)%string.
Proof. exists EmptyString. reflexivity. Qed.

Lemma within_step (p x y : string) :
  (exists before, x = (before ++ y)%string) ->
  exists before, (p ++ x)%string = (before ++ y)%string.
Proof.
  intros [before ->]. exists (p ++ before)%string. now rewrite append_assoc.
Qed.

Lemma within_message (system : ChatMessage) (r u y : string) :
  (exists before, u = (before ++ y)%string) ->
  exists before,
    [system; {| role := r; message_content := u |}]
    = [system; {| role := r; message_content := (before ++ y)%string |}].
Proof. intros [before ->]. exists before. reflexivity. Qed.

Ltac within :=
  lazymatch goal with
  | |- exists before, ?x = (before ++ ?x)%string => apply within_here
  | |- exists before, (_ ++ _)%string = _ => apply within_step; within
  end.

Lemma trim_blank (s : string) : blank s = true -> trim s = EmptyString.
Proof.
  unfold blank, trim. destruct (trimStart s); [reflexivity | discriminate].
Qed.

Lemma requests_app (tr evs : Trace) :
  requests (tr ++ evs) = requests tr ++ requests evs.
Proof. apply filter_app. Qed.

Lemma submissions_app (tr evs : Trace) :
  submissions (tr ++ evs) = submissions tr ++ submissions evs.
Proof. apply filter_app. Qed.

Lemma requests_console (logs : Trace) :
  forallb is_console logs = true -> requests logs = [].
Proof.
  induction logs as [|ev logs IH]; simpl; [reflexivity |].
  destruct ev; simpl; try discriminate. exact IH.
Qed.

Lemma submissions_review_events (evs : Trace) :
  forallb is_review_event evs = true -> submissions evs = [].
Proof.
  induction evs as [|ev evs IH]; simpl; [reflexivity |].
  destruct ev; simpl; try discriminate; exact IH.
Qed.

Lemma diff_fetches_review_events (evs : Trace) :
  forallb is_review_event evs = true -> filter is_diff_fetch evs = [].
Proof.
  induction evs as [|ev evs IH]; simpl; [reflexivity |].
  destruct ev; simpl; try discriminate; exact IH.
Qed.

Lemma console_review_events (logs : Trace) :
  forallb is_console logs = true -> forallb is_review_event logs = true.
Proof.
  induction logs as [|ev logs IH]; simpl; [reflexivity |].
  unfold is_review_event at 1. destruct (is_console ev); simpl; [exact IH | discriminate].
Qed.

(** ** The comment mapper *)

Lemma number_differs_from_null (n : number) :
  differs_from_null (VNumber n) = true.
Proof. reflexivity. Qed.

(** Whatever the loop of [createComment] does, it only logs; when it
    returns, it has pushed one record for every finding, each with the path
    of the file. The [else] branch that logs [LineNotFound] is never
    taken. *)
Lemma createComment_loop_outcome (file : File.t) (findings : list value) :
  forall (comments : list Comment) (tr : Trace),
  exists logs,
    snd (createComment_loop file findings comments tr) = tr ++ logs
    /\ forallb is_console logs = true
    /\ forall out,
         fst (createComment_loop file findings comments tr) = Return out ->
         exists new,
           out = comments ++ new
           /\ List.length new = List.length findings
           /\ Forall (fun c => path c = File.to file) new.
Proof.
  induction findings as [|finding rest IH]; intros comments tr.
  - exists []. simpl. rewrite app_nil_r. repeat split.
    intros out [= <-]. exists []. rewrite app_nil_r. repeat split. constructor.
  - cbn [createComment_loop]. unfold bind, lift, console, emit.
    destruct (get finding "lineNumber") as [token|e] eqn:Htoken.
    2:{ exists []. simpl. rewrite app_nil_r. repeat split. discriminate. }
    destruct (ToNumber token) as [lineNumber|e].
    2:{ exists []. simpl. rewrite app_nil_r. repeat split. discriminate. }
    rewrite number_differs_from_null.
    destruct (get finding "reviewComment") as [reviewComment|e] eqn:Hbody.
    2:{ exists [Console (Commenting lineNumber (File.to file))].
        cbn [fst snd forallb is_console andb]. repeat split. discriminate. }
    destruct (IH (comments ++ [ {| body := reviewComment; path := File.to file;
                                   line := lineNumber |} ])
                 (tr ++ [Console (Commenting lineNumber (File.to file))]))
      as (logs & Htr & Hlogs & Hout).
    exists (Console (Commenting lineNumber (File.to file)) :: logs).
    rewrite Htr, <- app_assoc. cbn [app forallb is_console andb].
    repeat split; [exact Hlogs |].
    intros out Hret. destruct (Hout out Hret) as (new & -> & Hlen & Hpath).
    exists ({| body := reviewComment; path := File.to file; line := lineNumber |} :: new).
    rewrite <- app_assoc. cbn [app List.length]. repeat split; [now rewrite Hlen |].
    constructor; [reflexivity | exact Hpath].
Qed.

Lemma createComment_outcome (file : File.t) (chunk : Chunk.t) (findings : value)
  (tr : Trace) :
  exists logs,
    snd (createComment file chunk findings tr) = tr ++ logs
    /\ forallb is_console logs = true
    /\ forall out,
         fst (createComment file chunk findings tr) = Return out ->
         exists elements,
           iterate findings = Return elements
           /\ List.length out = List.length elements
           /\ Forall (fun c => path c = File.to file) out.
Proof.
  unfold createComment, bind, lift.
  destruct (iterate findings) as [elements|e].
  2:{ exists []. cbn [fst snd forallb]. rewrite app_nil_r. repeat split. discriminate. }
  destruct (createComment_loop_outcome file elements [] tr) as (logs & Htr & Hlogs & Hout).
  exists logs. repeat split; [exact Htr | exact Hlogs |].
  intros out Hret. destruct (Hout out Hret) as (new & -> & Hlen & Hpath).
  exists elements. cbn [app]. auto.
Qed.

(** A token that is a primitive value converts to a Number without
    throwing. *)
Lemma ToNumber_primitive (v : value) :
  primitive v = true -> exists n, ToNumber v = Return n.
Proof.
  destruct v; cbn [primitive ToNumber]; intros H; try discriminate; eauto.
Qed.

(** Whatever the tokens of such findings are, the mapper returns: it maps
    every finding and throws on none. *)
Lemma createComment_loop_returns (file : File.t) (findings : list value) :
  Forall Spec.finding_shaped findings ->
  forall (comments : list Comment) (tr : Trace),
  exists out tr', createComment_loop file findings comments tr = (Return out, tr').
Proof.
  induction 1 as [|finding rest (properties & token & -> & Htoken & Hprimitive) _ IH];
    intros comments tr.
  - exists comments, tr. reflexivity.
  - cbn [createComment_loop]. unfold bind, lift, console, emit.
    cbn [get]. rewrite Htoken.
    destruct (ToNumber_primitive token Hprimitive) as [n ->].
    rewrite number_differs_from_null.
    destruct (own_property "reviewComment" properties); apply IH.
Qed.

(** C1 (the code departs from the claim): a finding whose [lineNumber] is
    the text [not-a-number] is not dropped. [Number] turns the token into
    [NaN], [NaN != null] holds, and [createComment] pushes a record whose
    line is [NaN] and logs that it comments on that line; nothing is logged
    on the error console. *)
Theorem unparsable_line_number_is_kept :
  createComment Examples.a_py Examples.hunk
    (VArray [Examples.finding (VString "not-a-number") (VString "Rename this.")])
    []
  = (Return [ {| body := VString "Rename this.";
                 path := Some "a.py";
                 line := NaN |} ],
     [Console (Commenting NaN (Some "a.py"))]).
Proof. reflexivity. Qed.

(** The sibling findings of such a finding are mapped too, in order. *)
Example siblings_are_mapped :
  fst (createComment Examples.a_py Examples.hunk
         (VArray [Examples.finding (VNumber (of_N 4)) (VString "First.");
                  Examples.finding (VString "not-a-number") (VString "Second.");
                  Examples.finding (VString "5") (VString "Third.")])
         [])
  = Return [ {| body := VString "First."; path := Some "a.py"; line := of_N 4 |};
             {| body := VString "Second."; path := Some "a.py"; line := NaN |};
             {| body := VString "Third."; path := Some "a.py"; line := of_N 5 |} ].
Proof. reflexivity. Qed.

(** A token that is an object with an own [toString] cannot be converted:
    [Number] throws, and so does the mapper. *)
Example unprintable_token_throws :
  fst (createComment Examples.a_py Examples.hunk
         (VArray [Examples.finding (VObject [("toString", VNull)]) (VString "First.");
                  Examples.finding (VNumber (of_N 5)) (VString "Second.")])
         [])
  = Throw TypeError.
Proof. reflexivity. Qed.

(** ** The prompt builder *)

Lemma number_length (lines : list (ChangeType * string)) :
  forall deleted added,
  List.length (ParseDiff.number deleted added lines) = List.length lines.
Proof.
  induction lines as [|[[| |] text] rest IH]; intros deleted added;
    cbn [ParseDiff.number List.length]; [reflexivity | | |]; now rewrite IH.
Qed.

(** The counters of [parse-diff] after some lines of a hunk are the
    numbers of the next line in the old and in the new file. *)
Lemma number_app (before rest : list (ChangeType * string)) :
  forall oldStart newStart,
  ParseDiff.number oldStart newStart (before ++ rest)
  = ParseDiff.number oldStart newStart before
    ++ ParseDiff.number (Spec.oldFileLine oldStart before)
         (Spec.newFileLine newStart before) rest.
Proof.
  unfold Spec.oldFileLine, Spec.newFileLine.
  induction before as [|[[| |] text] before IH]; intros oldStart newStart.
  - cbn [app filter List.length N.of_nat ParseDiff.number]. now rewrite !N.add_0_r.
  - cbn [app ParseDiff.number filter Spec.inOldFile Spec.inNewFile fst List.length].
    rewrite IH. do 3 f_equal. lia.
  - cbn [app ParseDiff.number filter Spec.inOldFile Spec.inNewFile fst List.length].
    rewrite IH. do 2 f_equal. f_equal. lia.
  - cbn [app ParseDiff.number filter Spec.inOldFile Spec.inNewFile fst List.length].
    rewrite IH. do 2 f_equal. f_equal; lia.
Qed.

(** C4, as amended: the lines of a chunk are annotated one by one, in their
    order, and joined by newlines; a line is printed as its number, a blank
    and its text. The number is the counter [ln] of an added or removed
    line and the left counter [ln1] of a context line, printed in decimal
    (for a counter below 10^21), and nothing when the counter is absent or
    zero. As [parse-diff] numbers a hunk, the counter of an added line is
    its line number in the new file, while that of a removed line, like that
    of a context line, is its line number in the old file. Both prompt
    builders put the hunk header, a newline and these lines into the text
    they send. *)
Theorem prompt_lines_carry_resolved_numbers :
  (forall header, diffContent (Chunk.make header []) = EmptyString)
  /\ (forall header change,
        diffContent (Chunk.make header [change]) = annotate change)
  /\ (forall header change next rest,
        diffContent (Chunk.make header (change :: next :: rest))
        = (annotate change ++ nl
           ++ diffContent (Chunk.make header (next :: rest)))%string)
  /\ (forall change,
        annotate change
        = (match Spec.resolvedLineNumber change with
           | Some n => if (n =? 0)%N then EmptyString else toString n
           | None => EmptyString
           end ++ " " ++ Change.content change)%string)
  /\ (forall n,
        (n < 10 ^ 21)%N ->
        NilEmpty.uint_of_string (toString n) = Some (N.to_uint n))
  /\ (forall oldStart newStart before kind text after,
        exists change,
          nth_error
            (ParseDiff.number oldStart newStart (before ++ (kind, text) :: after))
            (List.length before)
          = Some change
          /\ Change.type change = kind
          /\ Change.content change = text
          /\ Spec.resolvedLineNumber change
             = Some match kind with
                    | add => Spec.newFileLine newStart before
                    | del | normal => Spec.oldFileLine oldStart before
                    end)
  /\ (forall env file chunk prDetails,
        exists after before,
          MainTs.createPrompt env file chunk prDetails
          = (before ++ Chunk.content chunk ++ nl ++ diffContent chunk ++ after)%string)
  /\ (forall file chunk prDetails,
        exists system after before,
          Part000.createPrompt file chunk prDetails
          = [ system;
              {| role := "user";
                 message_content :=
                   (before ++ Chunk.content chunk ++ nl ++ diffContent chunk
                    ++ after)%string |} ]).
Proof.
  repeat match goal with |- _ /\ _ => split end.
  - reflexivity.
  - reflexivity.
  - reflexivity.
  - intros [kind text ln ln1 ln2]. unfold annotate, Spec.resolvedLineNumber.
    cbn [Change.type Change.ln Change.ln1 Change.content].
    destruct kind; reflexivity.
  - intros n _. unfold toString. apply NilEmpty.usu.
  - intros oldStart newStart before kind text after.
    rewrite number_app, nth_error_app2 by (rewrite number_length; lia).
    rewrite number_length, Nat.sub_diag.
    destruct kind; cbn [ParseDiff.number nth_error]; eexists; repeat split.
  - intros env file chunk prDetails. unfold MainTs.createPrompt. cbv zeta.
    exists (nl ++ "```
")%string. within.
  - intros file chunk prDetails. unfold Part000.createPrompt. cbv zeta.
    exists {| role := "system"; message_content := Part000.content |}.
    exists (nl ++ "```")%string. apply within_message. within.
Qed.

(** In [src/main.ts] the extra instructions follow the fixed policy
    verbatim. *)
Lemma extra_instructions_follow_policy (env : Env) (file : File.t)
  (chunk : Chunk.t) (prDetails : PRDetails) :
  exists rest,
    MainTs.createPrompt env file chunk prDetails
    = (MainTs.reviewer_policy ++ EXTRA_INSTRUCTIONS env ++ rest)%string.
Proof. unfold MainTs.createPrompt. eexists. reflexivity. Qed.

(** C8 (the code departs from the claim): the Java/Spring variant reads the
    extra instructions from the inputs and never uses them. With the extra
    instructions [Prefer early returns.], the one request the pipeline of
    that variant sends for the file [a.py] holds a system and a user
    message, and neither contains the extra instructions. *)
Theorem variant_prompt_lacks_extra_instructions :
  let env :=
    Examples.world "opened" EmptyString [Examples.a_py]
      (Examples.always (Return (Examples.completion "stop" (Some "{}")))) in
  EXTRA_INSTRUCTIONS env = "Prefer early returns."
  /\ exists system user,
       analyzeCode Part000.createPrompt Part000.request_messages env
         [Examples.a_py] Examples.pr []
       = (Return [], [ChatCompletionsCreate [system; user]])
       /\ includes (EXTRA_INSTRUCTIONS env) (message_content system) = false
       /\ includes (EXTRA_INSTRUCTIONS env) (message_content user) = false.
Proof.
  cbv zeta. split; [reflexivity |].
  eexists. eexists. split; [vm_compute; reflexivity |].
  split; vm_compute; reflexivity.
Qed.

(** ** The model invoker and the review loop *)

Section PipelineFacts.

Context {Prompt : Type}.
Variable createPrompt : File.t -> Chunk.t -> PRDetails -> Prompt.
Variable request_messages : Prompt -> list ChatMessage.
Variable env : Env.

Local Abbreviation invoke := (getAIResponse request_messages env).
Local Abbreviation review_chunks :=
  (analyzeCode_chunks createPrompt request_messages env).
Local Abbreviation review_files :=
  (analyzeCode_files createPrompt request_messages env).
Local Abbreviation review := (Spec.review createPrompt request_messages env).

(** Every call of [invoke] sends one request and then only logs. *)
Lemma getAIResponse_trace (prompt : Prompt) (tr : Trace) :
  exists logs,
    snd (invoke prompt tr)
    = tr ++ ChatCompletionsCreate (request_messages prompt) :: logs
    /\ forallb is_console logs = true.
Proof.
  unfold getAIResponse, create.
  destruct (chat_completions_create env _ _) as [response|error].
  - unfold try_catch, getAIResponse_read.
    destruct (Completion.choices response) as [|choice others] eqn:Hchoices.
    + unfold throw, getAIResponse_catch, partial_content, bind, lift.
      rewrite Hchoices. exists []. split; reflexivity.
    + destruct (String.eqb (Completion.finish_reason choice) "length").
      * unfold bind, console, emit, ret. exists [Console MaxContextExceeded].
        rewrite <- app_assoc. split; reflexivity.
      * unfold bind, lift.
        destruct (JSON_parse env (response_text choice)) as [parsed|error].
        -- destruct (get parsed "reviews") as [reviews|error].
           ++ exists []. split; reflexivity.
           ++ unfold getAIResponse_catch, partial_content, bind, lift, console, emit, ret.
              rewrite Hchoices. eexists [Console _].
              rewrite <- app_assoc. split; reflexivity.
        -- unfold getAIResponse_catch, partial_content, bind, lift, console, emit, ret.
           rewrite Hchoices. eexists [Console _].
           rewrite <- app_assoc. split; reflexivity.
  - unfold getAIResponse_catch, partial_content, bind, lift, console, emit, ret.
    eexists [Console _]. rewrite <- app_assoc. split; reflexivity.
Qed.

(** One turn of the inner loop of [analyzeCode] is one review of a pair. *)
Lemma analyzeCode_chunks_step (file : File.t) (chunk : Chunk.t)
  (rest : list Chunk.t) (prDetails : PRDetails) (comments : list Comment)
  (tr : Trace) :
  review_chunks file (chunk :: rest) prDetails comments tr
  = match review prDetails (file, chunk) tr with
    | (Return new, tr') => review_chunks file rest prDetails (comments ++ new) tr'
    | (Throw e, tr') => (Throw e, tr')
    end.
Proof.
  cbn [analyzeCode_chunks]. unfold Spec.review, bind. cbn [fst snd].
  destruct (invoke (createPrompt file chunk prDetails) tr) as [[findings|e] tr'];
    [| reflexivity].
  destruct (truthy findings).
  - destruct (createComment file chunk findings tr') as [[new|e] tr'']; reflexivity.
  - unfold ret. now rewrite app_nil_r.
Qed.

(** What a call without usable findings does: [invoke] logs and
    returns [null]. *)
Lemma getAIResponse_degrades (prompt : Prompt) (tr : Trace) (entry : LogEntry) :
  Spec.NoUsableFindings env
    (chat_completions_create env (List.length (requests tr)) (request_messages prompt))
    entry ->
  invoke prompt tr
  = (Return VNull,
     tr ++ [ChatCompletionsCreate (request_messages prompt); Console entry]).
Proof.
  intros H. unfold getAIResponse, create.
  inversion H as [error Hc | choice others Hlen Hc | choice others error Hlen Hparse Hc];
    subst entry.
  - unfold getAIResponse_catch, partial_content, bind, lift, console, emit, ret.
    now rewrite <- app_assoc.
  - unfold try_catch, getAIResponse_read. cbn [Completion.choices].
    rewrite Hlen, String.eqb_refl.
    unfold bind, console, emit, ret. now rewrite <- app_assoc.
  - unfold try_catch, getAIResponse_read. cbn [Completion.choices].
    apply String.eqb_neq in Hlen. rewrite Hlen.
    unfold bind, lift. rewrite Hparse.
    unfold getAIResponse_catch, partial_content, bind, lift, console, emit, ret.
    cbn [Completion.choices]. now rewrite <- app_assoc.
Qed.

(** A review sends the request of its pair and then only logs. *)
Lemma review_trace (prDetails : PRDetails) (pair : File.t * Chunk.t) (tr : Trace) :
  exists logs,
    snd (review prDetails pair tr)
    = tr ++ Spec.request createPrompt request_messages prDetails pair :: logs
    /\ forallb is_console logs = true.
Proof.
  unfold Spec.review, Spec.request, bind.
  destruct (getAIResponse_trace (createPrompt (fst pair) (snd pair) prDetails) tr)
    as (logs & Htr & Hlogs).
  destruct (invoke _ tr) as [[findings|e] tr']; cbn [snd] in Htr; subst tr'.
  2:{ exists logs. split; [reflexivity | exact Hlogs]. }
  destruct (truthy findings).
  - destruct (createComment_outcome (fst pair) (snd pair) findings
                (tr ++ ChatCompletionsCreate
                         (request_messages (createPrompt (fst pair) (snd pair) prDetails))
                       :: logs))
      as (logs' & Htr' & Hlogs' & _).
    exists (logs ++ logs'). rewrite Htr', <- app_assoc. split; [reflexivity |].
    rewrite forallb_app, Hlogs, Hlogs'. reflexivity.
  - exists logs. split; [reflexivity | exact Hlogs].
Qed.

Lemma concat_in_order_app {A} (first second : list (M (list A))) (tr : Trace) :
  Spec.concat_in_order (first ++ second) tr
  = (let* a := Spec.concat_in_order first in
     let* b := Spec.concat_in_order second in
     ret (a ++ b)) tr.
Proof.
  revert tr. induction first as [|step first IH]; intros tr.
  - cbn [app Spec.concat_in_order]. unfold bind, ret.
    destruct (Spec.concat_in_order second tr) as [[b|e] tr']; reflexivity.
  - cbn [app Spec.concat_in_order]. unfold bind at 1 3 4.
    destruct (step tr) as [[x|e] tr1]; [| reflexivity].
    unfold bind at 1. rewrite IH. unfold bind, ret.
    destruct (Spec.concat_in_order first tr1) as [[a|e] tr2]; [| reflexivity].
    destruct (Spec.concat_in_order second tr2) as [[b|e] tr3]; [| reflexivity].
    now rewrite app_assoc.
Qed.

Lemma pairs_cons (file : File.t) (rest : list File.t) :
  Spec.pairs (file :: rest) = map (pair file) (File.chunks file) ++ Spec.pairs rest.
Proof. reflexivity. Qed.

(** The inner loop pushes, behind the comments it was given, the outputs of
    the reviews of the file's chunks. *)
Lemma analyzeCode_chunks_collects (file : File.t) (prDetails : PRDetails)
  (chunks : list Chunk.t) :
  forall (comments : list Comment) (tr : Trace),
  review_chunks file chunks prDetails comments tr
  = Spec.collect comments
      (Spec.concat_in_order (map (review prDetails) (map (pair file) chunks))) tr.
Proof.
  induction chunks as [|chunk rest IH]; intros comments tr.
  - cbn. now rewrite app_nil_r.
  - rewrite analyzeCode_chunks_step. cbn [map Spec.concat_in_order].
    unfold Spec.collect, bind at 1 2.
    destruct (review prDetails (file, chunk) tr) as [[new|e] tr1]; [| reflexivity].
    rewrite IH. unfold Spec.collect, bind, ret.
    destruct (Spec.concat_in_order _ tr1) as [[others|e] tr2]; [| reflexivity].
    now rewrite app_assoc.
Qed.

(** The outer loop does the same over the files that are not deletions. *)
Lemma analyzeCode_files_collects (prDetails : PRDetails) (parsedDiff : list File.t) :
  forall (comments : list Comment) (tr : Trace),
  review_files parsedDiff prDetails comments tr
  = Spec.collect comments
      (Spec.concat_in_order
         (map (review prDetails)
              (Spec.pairs (filter (fun f => negb (Spec.isDeletion f)) parsedDiff)))) tr.
Proof.
  induction parsedDiff as [|file rest IH]; intros comments tr.
  - cbn. now rewrite app_nil_r.
  - cbn [analyzeCode_files filter]. fold (Spec.isDeletion file).
    destruct (Spec.isDeletion file); cbn [negb]; [apply IH |].
    rewrite pairs_cons, map_app.
    unfold Spec.collect at 1. unfold bind at 2.
    rewrite (concat_in_order_app _ _ tr).
    unfold bind at 1. rewrite analyzeCode_chunks_collects.
    unfold Spec.collect at 1. unfold bind at 1 2 3.
    destruct (Spec.concat_in_order _ tr) as [[a|e] tr1]; [| reflexivity].
    unfold ret at 1. rewrite IH. unfold Spec.collect, bind, ret.
    match goal with
    | |- context [Spec.concat_in_order ?l tr1] =>
        destruct (Spec.concat_in_order l tr1) as [[b|e] tr2]; [| reflexivity]
    end.
    now rewrite app_assoc.
Qed.

(** The reviews of a list of pairs add review events only; the requests
    they send are those of the pairs, in order, up to the pair at which a
    review throws, and those of all the pairs when every review returns. *)
Lemma reviews_trace (prDetails : PRDetails) (visited : list (File.t * Chunk.t)) :
  forall (tr : Trace) (r : result (list Comment)) (tr' : Trace),
  Spec.concat_in_order (map (review prDetails) visited) tr = (r, tr') ->
  exists evs done todo,
    tr' = tr ++ evs
    /\ forallb is_review_event evs = true
    /\ visited = done ++ todo
    /\ requests evs
       = map (Spec.request createPrompt request_messages prDetails) done
    /\ forall out, r = Return out -> todo = [].
Proof.
  induction visited as [|visit rest IH]; intros tr r tr' H.
  - cbn in H. injection H as <- <-. exists [], [], []. rewrite app_nil_r. auto.
  - cbn [map Spec.concat_in_order] in H. unfold bind at 1 in H.
    destruct (review_trace prDetails visit tr) as (logs & Htr & Hlogs).
    destruct (review prDetails visit tr) as [[new|e] tr1]; cbn [snd] in Htr; subst tr1.
    + unfold bind, ret in H.
      destruct (Spec.concat_in_order _ _) as [r2 tr2] eqn:Hrest.
      apply IH in Hrest as (evs & done & todo & -> & Hevs & -> & Hreq & Hall).
      exists (Spec.request createPrompt request_messages prDetails visit :: logs ++ evs),
             (visit :: done), todo.
      repeat split.
      * destruct r2; injection H as <- <-; now rewrite <- app_assoc.
      * cbn [forallb]. rewrite forallb_app, (console_review_events _ Hlogs), Hevs.
        reflexivity.
      * cbn [requests filter Spec.request is_request].
        fold (requests (logs ++ evs)).
        rewrite requests_app, (requests_console _ Hlogs), Hreq. reflexivity.
      * intros out ->. destruct r2 as [others|e]; [| discriminate].
        now apply (Hall others).
    + injection H as <- <-.
      exists (Spec.request createPrompt request_messages prDetails visit :: logs),
             [visit], rest.
      repeat split.
      * cbn [forallb]. now rewrite (console_review_events _ Hlogs).
      * cbn [requests filter Spec.request is_request]. fold (requests logs).
        now rewrite (requests_console _ Hlogs).
      * discriminate.
Qed.

Lemma analyzeCode_reviews (prDetails : PRDetails) (parsedDiff : list File.t)
  (tr : Trace) :
  analyzeCode createPrompt request_messages env parsedDiff prDetails tr
  = Spec.concat_in_order
      (map (review prDetails)
           (Spec.pairs (filter (fun f => negb (Spec.isDeletion f)) parsedDiff))) tr.
Proof.
  unfold analyzeCode. rewrite analyzeCode_files_collects.
  unfold Spec.collect, bind, ret.
  destruct (Spec.concat_in_order _ tr) as [[out|e] tr']; reflexivity.
Qed.

Lemma FileFilter_filteredDiff (patterns : list string) (parsedDiff : list File.t) :
  filter (fun f => negb (Spec.isDeletion f)) (filteredDiff env patterns parsedDiff)
  = Spec.FileFilter (minimatch env) patterns parsedDiff.
Proof.
  unfold filteredDiff, Spec.FileFilter, excluded.
  induction parsedDiff as [|file rest IH]; [reflexivity |].
  cbn [filter]. destruct (existsb _ patterns); cbn [negb].
  - rewrite andb_false_r. exact IH.
  - rewrite andb_true_r. cbn [filter]. rewrite IH. reflexivity.
Qed.

Lemma in_pairs (entries : list File.t) (file : File.t) (chunk : Chunk.t) :
  In (file, chunk) (Spec.pairs entries) <-> In file entries /\ In chunk (File.chunks file).
Proof.
  unfold Spec.pairs. rewrite in_flat_map. split.
  - intros (f & Hf & Hin). apply in_map_iff in Hin as (c & [= <- <-] & Hc). auto.
  - intros [Hf Hc]. exists file. split; [exact Hf |]. now apply in_map.
Qed.

(** C2, as amended: none of the chunks of a file entry whose target path is
    [/dev/null] reaches the prompt builder or the model. The filter of
    [main] tests the glob patterns only; the deletion test sits at the head
    of the loop of [analyzeCode]. Together they act as the File Filter of
    the specification: [analyzeCode], run on [filteredDiff], reviews the
    pairs of the entries that are no deletions and match no pattern, and
    nothing else; every request it sends is the request of a chunk of such
    an entry; and taking a deletion entry out of its input changes neither
    its result nor its trace. *)
Theorem deletions_are_never_reviewed (prDetails : PRDetails)
  (patterns : list string) (parsedDiff : list File.t) (tr : Trace) :
  let kept := Spec.FileFilter (minimatch env) patterns parsedDiff in
  analyzeCode createPrompt request_messages env
    (filteredDiff env patterns parsedDiff) prDetails tr
  = Spec.concat_in_order (map (review prDetails) (Spec.pairs kept)) tr
  /\ (exists evs,
        snd (analyzeCode createPrompt request_messages env
               (filteredDiff env patterns parsedDiff) prDetails tr) = tr ++ evs
        /\ forall messages,
             In (ChatCompletionsCreate messages) evs ->
             exists file chunk,
               In file (filteredDiff env patterns parsedDiff)
               /\ File.to file <> Some "/dev/null"
               /\ In chunk (File.chunks file)
               /\ messages = request_messages (createPrompt file chunk prDetails))
  /\ (forall before file after,
        File.to file = Some "/dev/null" ->
        analyzeCode createPrompt request_messages env
          (before ++ file :: after) prDetails tr
        = analyzeCode createPrompt request_messages env
            (before ++ after) prDetails tr).
Proof.
  cbv zeta. split; [| split].
  - rewrite analyzeCode_reviews, FileFilter_filteredDiff. reflexivity.
  - rewrite analyzeCode_reviews.
    destruct (Spec.concat_in_order _ tr) as [r tr'] eqn:Hrun.
    apply reviews_trace in Hrun as (evs & done & todo & -> & _ & Hsplit & Hreq & _).
    exists evs. split; [reflexivity |]. intros messages Hin.
    assert (Hsent : In (ChatCompletionsCreate messages) (requests evs)).
    { unfold requests. apply filter_In. split; [exact Hin | reflexivity]. }
    rewrite Hreq in Hsent. apply in_map_iff in Hsent as ([file chunk] & Heq & Hdone).
    unfold Spec.request in Heq. cbn [fst snd] in Heq. injection Heq as <-.
    assert (Hpair : In (file, chunk)
                       (Spec.pairs
                          (filter (fun f => negb (Spec.isDeletion f))
                                  (filteredDiff env patterns parsedDiff)))).
    { rewrite Hsplit. apply in_or_app. now left. }
    apply in_pairs in Hpair as [Hfile Hchunk].
    apply filter_In in Hfile as [Hfile Hkept].
    exists file, chunk. repeat split; auto.
    intros Hto. unfold Spec.isDeletion in Hkept. rewrite Hto in Hkept. discriminate.
  - intros before file after Hto.
    rewrite !analyzeCode_reviews, !filter_app. cbn [filter].
    unfold Spec.isDeletion at 2. rewrite Hto. reflexivity.
Qed.

(** C3: when the model's response is cut at the token budget (finish reason
    [length]), or the request fails, or the text of the response does not
    parse, [getAIResponse] logs and returns [null]; the review of the chunk
    yields no comment; the loop of [analyzeCode] goes on with the next chunk,
    the comments collected so far unchanged, and after the chunks of the
    file with the next file. *)
Theorem no_usable_findings_skip_the_chunk (file : File.t) (chunk : Chunk.t)
  (rest : list Chunk.t) (files : list File.t) (prDetails : PRDetails)
  (comments : list Comment) (tr : Trace) (entry : LogEntry) :
  Spec.NoUsableFindings env
    (chat_completions_create env (List.length (requests tr))
       (request_messages (createPrompt file chunk prDetails)))
    entry ->
  let sent :=
    [ChatCompletionsCreate (request_messages (createPrompt file chunk prDetails));
     Console entry] in
  invoke (createPrompt file chunk prDetails) tr = (Return VNull, tr ++ sent)
  /\ review prDetails (file, chunk) tr = (Return [], tr ++ sent)
  /\ review_chunks file (chunk :: rest) prDetails comments tr
     = review_chunks file rest prDetails comments (tr ++ sent)
  /\ (File.to file <> Some "/dev/null" ->
      File.chunks file = chunk :: rest ->
      review_files (file :: files) prDetails comments tr
      = (let* comments' := review_chunks file rest prDetails comments in
         review_files files prDetails comments') (tr ++ sent)).
Proof.
  intros H sent. pose proof (getAIResponse_degrades _ _ _ H) as Hnull.
  assert (Hreview : review prDetails (file, chunk) tr = (Return [], tr ++ sent)).
  { unfold Spec.review, bind. cbn [fst snd]. rewrite Hnull. reflexivity. }
  assert (Hstep : review_chunks file (chunk :: rest) prDetails comments tr
                  = review_chunks file rest prDetails comments (tr ++ sent)).
  { rewrite analyzeCode_chunks_step, Hreview, app_nil_r. reflexivity. }
  repeat split; [exact Hnull | exact Hreview | exact Hstep |].
  intros Hto Hchunks. cbn [analyzeCode_files].
  replace (same_string (File.to file) "/dev/null") with false.
  2:{ symmetry. destruct (File.to file) as [s|]; [| reflexivity].
      apply String.eqb_neq. congruence. }
  unfold bind. rewrite Hchunks, Hstep. reflexivity.
Qed.

(** C10: when the call succeeds, the response is not cut, and the text of
    the first choice is empty or holds white space only, the text handed to
    [JSON.parse] is [{}]; the parsed object has no [reviews], so
    [getAIResponse] returns [undefined] without logging, the review of the
    chunk yields no comment, and the loop of [analyzeCode] goes on with the
    next chunk. *)
Theorem blank_content_gives_no_comment (file : File.t) (chunk : Chunk.t)
  (rest : list Chunk.t) (prDetails : PRDetails) (comments : list Comment)
  (tr : Trace) (choice : Completion.Choice) (others : list Completion.Choice)
  (text : string) :
  chat_completions_create env (List.length (requests tr))
    (request_messages (createPrompt file chunk prDetails))
  = Return {| Completion.choices := choice :: others |} ->
  Completion.finish_reason choice <> "length" ->
  Completion.message choice = Some {| Completion.content := Some text |} ->
  blank text = true ->
  JSON_parse env "{}" = Return (VObject []) ->
  let sent :=
    [ChatCompletionsCreate (request_messages (createPrompt file chunk prDetails))] in
  response_text choice = "{}"
  /\ invoke (createPrompt file chunk prDetails) tr = (Return VUndefined, tr ++ sent)
  /\ review prDetails (file, chunk) tr = (Return [], tr ++ sent)
  /\ review_chunks file (chunk :: rest) prDetails comments tr
     = review_chunks file rest prDetails comments (tr ++ sent).
Proof.
  intros Hcall Hfinish Hmessage Hblank Hparse sent.
  assert (Htext : response_text choice = "{}").
  { unfold response_text. rewrite Hmessage. cbn [Completion.content].
    now rewrite (trim_blank _ Hblank). }
  assert (Hundefined :
            invoke (createPrompt file chunk prDetails) tr
            = (Return VUndefined, tr ++ sent)).
  { unfold getAIResponse, create. rewrite Hcall.
    unfold try_catch, getAIResponse_read. cbn [Completion.choices].
    apply String.eqb_neq in Hfinish. rewrite Hfinish, Htext.
    unfold bind, lift. rewrite Hparse. reflexivity. }
  assert (Hreview : review prDetails (file, chunk) tr = (Return [], tr ++ sent)).
  { unfold Spec.review, bind. cbn [fst snd]. rewrite Hundefined. reflexivity. }
  repeat split; [exact Htext | exact Hundefined | exact Hreview |].
  rewrite analyzeCode_chunks_step, Hreview, app_nil_r. reflexivity.
Qed.

(** C7: [analyzeCode] reviews the (file, chunk) pairs of the files that are
    not deletions, file after file and, within a file, chunk after chunk; it
    returns the outputs of the comment mapper for these pairs, concatenated
    in that order; when it returns, the requests it has sent are those of
    the pairs, in that order; and every comment the mapper makes for a pair
    carries the path of the pair's file. *)
Theorem analyzeCode_concatenates_in_order (prDetails : PRDetails)
  (parsedDiff : list File.t) (tr : Trace) :
  let visited :=
    Spec.pairs (filter (fun f => negb (Spec.isDeletion f)) parsedDiff) in
  analyzeCode createPrompt request_messages env parsedDiff prDetails tr
  = Spec.concat_in_order (map (review prDetails) visited) tr
  /\ (forall comments tr',
        analyzeCode createPrompt request_messages env parsedDiff prDetails tr
        = (Return comments, tr') ->
        requests tr'
        = requests tr
          ++ map (Spec.request createPrompt request_messages prDetails) visited)
  /\ (forall file chunk findings tr0 comments tr1,
        createComment file chunk findings tr0 = (Return comments, tr1) ->
        Forall (fun c => path c = File.to file) comments).
Proof.
  cbv zeta. split; [apply analyzeCode_reviews | split].
  - intros comments tr' Hrun. rewrite analyzeCode_reviews in Hrun.
    apply reviews_trace in Hrun as (evs & done & todo & -> & _ & Hsplit & Hreq & Hall).
    rewrite (Hall comments eq_refl), app_nil_r in Hsplit.
    rewrite requests_app, Hreq, Hsplit. reflexivity.
  - intros file chunk findings tr0 comments tr1 Hmap.
    destruct (createComment_outcome file chunk findings tr0) as (_ & _ & _ & Hout).
    rewrite Hmap in Hout. destruct (Hout comments eq_refl) as (_ & _ & _ & Hpath).
    exact Hpath.
Qed.

(** [analyzeCode] adds review events only. *)
Lemma analyzeCode_trace (prDetails : PRDetails) (parsedDiff : list File.t)
  (tr : Trace) (r : result (list Comment)) (tr' : Trace) :
  analyzeCode createPrompt request_messages env parsedDiff prDetails tr = (r, tr') ->
  exists evs, tr' = tr ++ evs /\ forallb is_review_event evs = true.
Proof.
  rewrite analyzeCode_reviews. intros Hrun.
  apply reviews_trace in Hrun as (evs & _ & _ & -> & Hevs & _).
  exists evs. auto.
Qed.

(** ** Submission *)

(** [createReviewComment] sends one review and never throws: a rejection is
    logged. *)
Lemma createReviewComment_outcome (owner repo pull_number : value)
  (commit_id : string) (comments : list Comment) (tr : Trace) :
  exists logs,
    createReviewComment env owner repo pull_number commit_id comments tr
    = (Return tt,
       tr ++ PullsCreateReview
               {| review_owner := owner; review_repo := repo;
                  review_pull_number := pull_number;
                  review_commit_id := commit_id;
                  review_comments := comments; review_event := "COMMENT" |}
          :: logs)
    /\ forallb is_console logs = true.
Proof.
  unfold createReviewComment, try_catch, bind, lift, emit, console.
  destruct (pulls_createReview env _) as [[]|error].
  - exists []. split; reflexivity.
  - unfold emit. destruct (exn_status error) as [status|].
    + destruct (status =? 422)%N.
      * eexists [_; _]. rewrite <- !app_assoc. split; reflexivity.
      * eexists [_]. unfold ret. rewrite <- !app_assoc. split; reflexivity.
    + eexists [_]. unfold ret. rewrite <- !app_assoc. split; reflexivity.
Qed.

(** [getPRDetails] only fetches the pull request and its commits. *)
Lemma getPRDetails_trace (tr : Trace) :
  exists evs,
    snd (getPRDetails env tr) = tr ++ evs
    /\ forallb is_metadata_fetch evs = true.
Proof.
  unfold getPRDetails, bind, lift, emit, throw, ret.
  destruct (event_file env) as [text|error]; [| exists []; now rewrite app_nil_r].
  destruct (JSON_parse env text) as [payload|error]; [| exists []; now rewrite app_nil_r].
  destruct (get payload "repository") as [repository|error];
    [| exists []; now rewrite app_nil_r].
  destruct (get payload "number") as [number|error];
    [| exists []; now rewrite app_nil_r].
  destruct (get repository "owner") as [owner|error];
    [| exists []; now rewrite app_nil_r].
  destruct (get owner "login") as [login|error]; [| exists []; now rewrite app_nil_r].
  destruct (get repository "name") as [name|error];
    [| exists []; now rewrite app_nil_r].
  destruct (pulls_get env login name number) as [prResponse|error];
    [| eexists [_]; split; reflexivity].
  destruct (pulls_listCommits env login name number) as [commits|error];
    [| eexists [_; _]; rewrite <- app_assoc; split; reflexivity].
  destruct (rev commits); eexists [_; _]; rewrite <- app_assoc; split; reflexivity.
Qed.

Lemma submissions_metadata (evs : Trace) :
  forallb is_metadata_fetch evs = true ->
  submissions evs = [] /\ requests evs = [] /\ filter is_diff_fetch evs = [].
Proof.
  induction evs as [|ev evs IH]; cbn [forallb]; [auto |].
  intros H. apply andb_prop in H as [Hev Hevs].
  destruct ev; try discriminate; cbn; auto.
Qed.

(** X16: no run submits more than one review, whatever the event, the diff,
    the answers of the model and of the platform are. *)
Lemma main_submits_at_most_once :
  List.length (submissions (snd (main createPrompt request_messages env []))) <= 1.
Proof.
  unfold main, bind at 1.
  destruct (getPRDetails_trace []) as (evs0 & Htr0 & Hevs0).
  destruct (getPRDetails env []) as [[prDetails|error] tr0];
    cbn [snd app] in Htr0; subst tr0;
    destruct (submissions_metadata _ Hevs0) as (Hsub0 & _ & _);
    [| cbn [snd]; rewrite Hsub0; cbn; lia].
  unfold getDiff, bind, lift, emit.
  destruct (event_file env) as [text|error]; [| cbn [snd]; rewrite Hsub0; cbn; lia].
  destruct (JSON_parse env text) as [event|error];
    [| cbn [snd]; rewrite Hsub0; cbn; lia].
  destruct (get event "action") as [action|error];
    [| cbn [snd]; rewrite Hsub0; cbn; lia].
  destruct (strictly_equals_string action "opened"
            || strictly_equals_string action "synchronize").
  2:{ unfold console, emit. cbn [snd]. rewrite submissions_app, Hsub0. cbn. lia. }
  assert (Hsub1 : submissions
                    (evs0 ++ [PullsGetDiff (owner prDetails) (repo prDetails)
                                (pull_number prDetails)]) = []).
  { rewrite submissions_app, Hsub0. reflexivity. }
  destruct (pulls_get_diff env _ _ _) as [[[|c diff]|]|error];
    try (unfold console, emit; cbn [snd]; rewrite submissions_app, Hsub1; cbn; lia);
    try (cbn [snd]; rewrite Hsub1; cbn; lia).
  destruct (parseDiff env _) as [parsedDiff|error];
    [| cbn [snd]; rewrite Hsub1; cbn; lia].
  destruct (analyzeCode createPrompt request_messages env _ prDetails _)
    as [r tr] eqn:Hrun.
  apply analyzeCode_trace in Hrun as (evs & -> & Hevs).
  assert (Hquiet : submissions
                     ((evs0 ++ [PullsGetDiff (owner prDetails) (repo prDetails)
                                  (pull_number prDetails)]) ++ evs) = []).
  { rewrite submissions_app, Hsub1, (submissions_review_events _ Hevs). reflexivity. }
  destruct r as [[|comment comments]|error].
  - unfold console, emit. cbn [snd]. rewrite submissions_app, Hquiet. cbn. lia.
  - match goal with
    | |- context [createReviewComment env ?o ?r ?n ?c ?cs ?t] =>
        destruct (createReviewComment_outcome o r n c cs t) as (logs & -> & Hlogs)
    end.
    cbn [snd]. rewrite submissions_app, Hquiet.
    cbn [app submissions filter is_submission]. fold (submissions logs).
    rewrite (submissions_review_events _ (console_review_events _ Hlogs)). cbn. lia.
  - cbn [snd]. rewrite Hquiet. cbn. lia.
Qed.

(** C5: in a run that reaches the review loop, when [analyzeCode] returns
    no comment, [main] logs that there is nothing to post and returns
    without any submission; when it returns at least one comment, [main]
    submits one review that carries all the comments, and only one. *)
Theorem review_is_submitted_once_or_never (prDetails : PRDetails)
  (fetched : Trace) (text : string) (event action : value) (diff : string)
  (parsedDiff : list File.t) (comments : list Comment) (tr : Trace) :
  getPRDetails env [] = (Return prDetails, fetched) ->
  event_file env = Return text ->
  JSON_parse env text = Return event ->
  get event "action" = Return action ->
  strictly_equals_string action "opened"
  || strictly_equals_string action "synchronize" = true ->
  pulls_get_diff env (owner prDetails) (repo prDetails) (pull_number prDetails)
  = Return (Some diff) ->
  diff <> EmptyString ->
  parseDiff env diff = Return parsedDiff ->
  analyzeCode createPrompt request_messages env
    (filteredDiff env (excludePatterns env) parsedDiff) prDetails
    (fetched
     ++ [PullsGetDiff (owner prDetails) (repo prDetails) (pull_number prDetails)])
  = (Return comments, tr) ->
  let submission :=
    PullsCreateReview
      {| review_owner := owner prDetails; review_repo := repo prDetails;
         review_pull_number := pull_number prDetails;
         review_commit_id := commit_id prDetails;
         review_comments := comments; review_event := "COMMENT" |} in
  let final := snd (main createPrompt request_messages env []) in
  fst (main createPrompt request_messages env []) = Return tt
  /\ (comments = [] ->
      final = tr ++ [Console NoComments] /\ submissions final = [])
  /\ (comments <> [] ->
      (exists logs,
         final = tr ++ submission :: logs /\ forallb is_console logs = true)
      /\ submissions final = [submission]).
Proof.
  intros Hpr Hfile Hevent Haction Hsupported Hdiff Hnonempty Hparse Hrun submission.
  assert (Hquiet : submissions tr = []).
  { apply analyzeCode_trace in Hrun as (evs & -> & Hevs).
    destruct (getPRDetails_trace []) as (evs0 & Htr0 & Hevs0).
    rewrite Hpr in Htr0. cbn [snd app] in Htr0. subst fetched.
    destruct (submissions_metadata _ Hevs0) as (Hsub0 & _ & _).
    rewrite !submissions_app, Hsub0, (submissions_review_events _ Hevs). reflexivity. }
  assert (Hmain :
            main createPrompt request_messages env []
            = match comments with
              | [] => console NoComments tr
              | _ :: _ =>
                  createReviewComment env (owner prDetails) (repo prDetails)
                    (pull_number prDetails) (commit_id prDetails) comments tr
              end).
  { unfold main, bind at 1. rewrite Hpr.
    unfold getDiff, bind, lift, emit.
    rewrite Hfile, Hevent, Haction, Hsupported, Hdiff.
    destruct diff as [|c diff]; [contradiction |].
    rewrite Hparse, Hrun. destruct comments; reflexivity. }
  cbv zeta. rewrite Hmain. destruct comments as [|comment comments].
  - unfold console, emit. cbn [fst snd]. split; [reflexivity | split].
    + intros _. split; [reflexivity |].
      rewrite submissions_app, Hquiet. reflexivity.
    + intros Hsome. contradiction.
  - destruct (createReviewComment_outcome (owner prDetails) (repo prDetails)
                (pull_number prDetails) (commit_id prDetails)
                (comment :: comments) tr) as (logs & -> & Hlogs).
    cbn [fst snd]. split; [reflexivity | split].
    + discriminate.
    + intros _. split; [exists logs; auto |].
      rewrite submissions_app, Hquiet. cbn [app submissions filter is_submission].
      fold (submissions logs).
      rewrite (submissions_review_events _ (console_review_events _ Hlogs)).
      reflexivity.
Qed.

(** C9, as amended: when the action of the event is neither [opened] nor
    [synchronize], [main] fetches no diff, sends no request to the model and
    submits no review; and once [getPRDetails], the first statement of
    [main], has returned, all [main] does is log that the event is not
    supported and return. *)
Theorem unsupported_event_returns_early (text : string) (event action : value) :
  event_file env = Return text ->
  JSON_parse env text = Return event ->
  get event "action" = Return action ->
  strictly_equals_string action "opened" = false ->
  strictly_equals_string action "synchronize" = false ->
  let final := snd (main createPrompt request_messages env []) in
  (filter is_diff_fetch final = [] /\ requests final = [] /\ submissions final = [])
  /\ (forall prDetails fetched,
        getPRDetails env [] = (Return prDetails, fetched) ->
        main createPrompt request_messages env []
        = (Return tt, fetched ++ [Console (UnsupportedEvent (GITHUB_EVENT_NAME env))])
        /\ run createPrompt request_messages env
           = (0%N, fetched ++ [Console (UnsupportedEvent (GITHUB_EVENT_NAME env))])).
Proof.
  intros Hfile Hevent Haction Hopened Hsynchronize. cbv zeta.
  assert (Hmain :
            main createPrompt request_messages env []
            = match getPRDetails env [] with
              | (Return _, fetched) =>
                  (Return tt,
                   fetched ++ [Console (UnsupportedEvent (GITHUB_EVENT_NAME env))])
              | (Throw error, fetched) => (Throw error, fetched)
              end).
  { unfold main, bind at 1.
    destruct (getPRDetails env []) as [[prDetails|error] fetched]; [| reflexivity].
    unfold bind, lift, console, emit.
    now rewrite Hfile, Hevent, Haction, Hopened, Hsynchronize. }
  unfold run. rewrite Hmain.
  destruct (getPRDetails_trace []) as (evs0 & Htr0 & Hevs0).
  destruct (submissions_metadata _ Hevs0) as (Hsub0 & Hreq0 & Hdiff0).
  destruct (getPRDetails env []) as [[prDetails|error] tr0];
    cbn [snd app] in Htr0; subst tr0; cbn [snd].
  - split.
    + unfold submissions, requests in *. rewrite !filter_app, Hsub0, Hreq0, Hdiff0.
      repeat split.
    + intros prDetails' fetched [= <- <-]. split; reflexivity.
  - split; [auto |]. intros prDetails' fetched [=].
Qed.

End PipelineFacts.

(** ** The exclusion filter *)

Lemma nonempty_iff (s : string) : nonempty s = true <-> s <> EmptyString.
Proof. destruct s; cbn; split; intros H; congruence. Qed.

Lemma filter_dropped {A} (keep : A -> bool) (entries : list A) :
  Spec.Dropped (filter keep entries) entries.
Proof.
  induction entries as [|x entries IH]; cbn; [constructor |].
  destruct (keep x); constructor; exact IH.
Qed.

(** Dropping neither reorders nor invents entries. *)
Lemma dropped_in {A} (kept entries : list A) :
  Spec.Dropped kept entries -> forall x, In x kept -> In x entries.
Proof.
  induction 1 as [|x kept entries _ IH|x kept entries _ IH]; intros y Hy.
  - exact Hy.
  - destruct Hy as [<- | Hy]; [now left | right; auto].
  - right. auto.
Qed.

(** C6, as amended: the patterns are the pieces of the [exclude] input
    between commas, trimmed, without the empty ones; the filter of [main]
    drops an entry exactly when [minimatch] matches its path against one of
    the patterns; it keeps the other entries as they are and in their
    order. With shell-glob matching a star does not cross a slash: under the
    pattern [*.md] the entry [readme.md] is dropped while [docs/readme.md]
    and [src/app.ts] are retained; [docs/readme.md] is dropped under the
    pattern [**/*.md]. *)
Theorem exclusion_filter_drops_matching_paths (env : Env) (parsedDiff : list File.t) :
  excludePatterns env
  = filter nonempty (map trim (split "," (exclude env)))
  /\ (forall pattern,
        In pattern (excludePatterns env)
        <-> pattern <> EmptyString
            /\ exists piece,
                 In piece (split "," (exclude env)) /\ pattern = trim piece)
  /\ (forall patterns file,
        In file (filteredDiff env patterns parsedDiff)
        <-> In file parsedDiff
            /\ forall pattern,
                 In pattern patterns ->
                 minimatch env
                   (match File.to file with Some s => s | None => EmptyString end)
                   pattern = false)
  /\ (forall patterns, Spec.Dropped (filteredDiff env patterns parsedDiff) parsedDiff)
  /\ (minimatch env = Minimatch.matcher ->
      let entries :=
        [Examples.readme_md; Examples.docs_readme_md; Examples.src_app_ts] in
      filteredDiff env ["*.md"] entries
      = [Examples.docs_readme_md; Examples.src_app_ts]
      /\ filteredDiff env ["**/*.md"] entries = [Examples.src_app_ts]).
Proof.
  split; [reflexivity | split; [| split; [| split]]].
  - intros pattern. unfold excludePatterns. rewrite filter_In, in_map_iff, nonempty_iff.
    split.
    + intros [(piece & <- & Hpiece) Hnonempty]. split; [exact Hnonempty |].
      exists piece. auto.
    + intros [Hnonempty (piece & Hpiece & ->)]. split; [| exact Hnonempty].
      exists piece. auto.
  - intros patterns file. unfold filteredDiff, excluded.
    rewrite filter_In, negb_true_iff. split; intros [Hin Hkeep]; split; try exact Hin.
    + intros pattern Hpattern.
      destruct (minimatch env _ pattern) eqn:Hmatch; [| reflexivity].
      assert (Hsome : existsb
                        (fun pattern =>
                           minimatch env
                             (match File.to file with
                              | Some s => s
                              | None => EmptyString
                              end) pattern) patterns = true).
      { apply existsb_exists. exists pattern. auto. }
      rewrite Hsome in Hkeep. discriminate.
    + destruct (existsb _ patterns) eqn:Hsome; [| reflexivity].
      apply existsb_exists in Hsome as (pattern & Hpattern & Hmatch).
      rewrite (Hkeep pattern Hpattern) in Hmatch. discriminate.
  - intros patterns. apply filter_dropped.
  - intros Hmatcher. cbv zeta. unfold filteredDiff, excluded. rewrite Hmatcher.
    split; vm_compute; reflexivity.
Qed.

(** ** The theorems at work on the examples *)

(** C3, witness: the model's text is no JSON; the chunk of [a.py] is
    skipped and the loop ends with no comment. *)
Lemma no_usable_findings_witness :
  Spec.NoUsableFindings Examples.garbled
    (Return (Examples.completion "stop" (Some "Sure! Here is my review.")))
    (ErrorLogged SyntaxError (Some "Sure! Here is my review."))
  /\ analyzeCode_chunks (MainTs.createPrompt Examples.garbled)
       MainTs.request_messages Examples.garbled
       Examples.a_py [Examples.hunk] Examples.pr [] []
     = (Return [],
        [ChatCompletionsCreate
           (MainTs.request_messages
              (MainTs.createPrompt Examples.garbled Examples.a_py Examples.hunk
                 Examples.pr));
         Console (ErrorLogged SyntaxError (Some "Sure! Here is my review."))]).
Proof.
  assert (H : Spec.NoUsableFindings Examples.garbled
                (Return (Examples.completion "stop" (Some "Sure! Here is my review.")))
                (ErrorLogged SyntaxError (Some "Sure! Here is my review."))).
  { apply (Spec.parsing_failure Examples.garbled
             {| Completion.finish_reason := "stop";
                Completion.message :=
                  Some {| Completion.content := Some "Sure! Here is my review." |} |}
             [] SyntaxError).
    - discriminate.
    - reflexivity. }
  split; [exact H |].
  exact (proj1 (proj2 (proj2
           (no_usable_findings_skip_the_chunk
              (MainTs.createPrompt Examples.garbled) MainTs.request_messages
              Examples.garbled Examples.a_py Examples.hunk [] [] Examples.pr [] []
              _ H)))).
Defined.

(** C10, witness: the model answers with blanks and a newline. *)
Lemma blank_content_witness :
  blank (" " ++ nl ++ "  ") = true
  /\ getAIResponse MainTs.request_messages Examples.silent
       (MainTs.createPrompt Examples.silent Examples.a_py Examples.hunk Examples.pr) []
     = (Return VUndefined,
        [ChatCompletionsCreate
           (MainTs.request_messages
              (MainTs.createPrompt Examples.silent Examples.a_py Examples.hunk
                 Examples.pr))]).
Proof.
  split; [reflexivity |].
  refine (proj1 (proj2
            (blank_content_gives_no_comment
               (MainTs.createPrompt Examples.silent) MainTs.request_messages
               Examples.silent Examples.a_py Examples.hunk [] Examples.pr [] []
               {| Completion.finish_reason := "stop";
                  Completion.message :=
                    Some {| Completion.content := Some (" " ++ nl ++ "  ")%string |} |}
               [] (" " ++ nl ++ "  ")%string _ _ _ _ _))).
  - reflexivity.
  - discriminate.
  - reflexivity.
  - reflexivity.
  - reflexivity.
Defined.

(** C5, witness: the model reports one finding on [a.py]; one review is
    submitted, and it carries the comment. *)
Lemma one_review_witness :
  submissions
    (snd (main (MainTs.createPrompt Examples.critical) MainTs.request_messages
            Examples.critical []))
  = [PullsCreateReview
       {| review_owner := VString "octo"; review_repo := VString "shop";
          review_pull_number := VNumber (of_N 7); review_commit_id := "abc123";
          review_comments :=
            [ {| body := VString "Use a named constant instead of a magic number.";
                 path := Some "a.py";
                 line := of_N 5 |} ];
          review_event := "COMMENT" |}].
Proof.
  refine (proj2 (proj2 (proj2
            (review_is_submitted_once_or_never
               (MainTs.createPrompt Examples.critical) MainTs.request_messages
               Examples.critical Examples.pr
               [PullsGet (VString "octo") (VString "shop") (VNumber (of_N 7));
                PullsListCommits (VString "octo") (VString "shop") (VNumber (of_N 7))]
               (Examples.event_text "opened") (Examples.event "opened")
               (VString "opened")
               "diff --git a/a.py b/a.py" [Examples.a_py]
               [ {| body := VString "Use a named constant instead of a magic number.";
                    path := Some "a.py";
                    line := of_N 5 |} ]
               [PullsGet (VString "octo") (VString "shop") (VNumber (of_N 7));
                PullsListCommits (VString "octo") (VString "shop") (VNumber (of_N 7));
                PullsGetDiff (VString "octo") (VString "shop") (VNumber (of_N 7));
                ChatCompletionsCreate
                  (MainTs.request_messages
                     (MainTs.createPrompt Examples.critical Examples.a_py
                        Examples.hunk Examples.pr));
                Console (Commenting (of_N 5) (Some "a.py"))]
               _ _ _ _ _ _ _ _ _)) _)).
  - reflexivity.
  - reflexivity.
  - reflexivity.
  - reflexivity.
  - reflexivity.
  - reflexivity.
  - discriminate.
  - reflexivity.
  - vm_compute. reflexivity.
  - discriminate.
Defined.

(** C2, the claim fails for the filter of [main]: with no exclusion
    pattern, the entry whose target path is [/dev/null] is in
    [filteredDiff]. *)
Lemma deletion_passes_the_exclusion_filter :
  File.to Examples.removed = Some "/dev/null"
  /\ excludePatterns Examples.removal = []
  /\ filteredDiff Examples.removal (excludePatterns Examples.removal)
       [Examples.removed]
     = [Examples.removed].
Proof. repeat split. Qed.

(** A diff that only removes a file: nothing is sent, nothing is posted. *)
Example removal_is_a_clean_run :
  run (MainTs.createPrompt Examples.removal) MainTs.request_messages
    Examples.removal
  = (0%N,
     [PullsGet (VString "octo") (VString "shop") (VNumber (of_N 7));
      PullsListCommits (VString "octo") (VString "shop") (VNumber (of_N 7));
      PullsGetDiff (VString "octo") (VString "shop") (VNumber (of_N 7));
      Console NoComments]).
Proof. vm_compute. reflexivity. Qed.

(** C9, witness: the pull request was closed. *)
Lemma unsupported_event_witness :
  run (MainTs.createPrompt Examples.closed) MainTs.request_messages Examples.closed
  = (0%N,
     [PullsGet (VString "octo") (VString "shop") (VNumber (of_N 7));
      PullsListCommits (VString "octo") (VString "shop") (VNumber (of_N 7));
      Console (UnsupportedEvent (Some "pull_request"))]).
Proof.
  refine (proj2 (proj2
            (unsupported_event_returns_early
               (MainTs.createPrompt Examples.closed) MainTs.request_messages
               Examples.closed
               (Examples.event_text "closed") (Examples.event "closed")
               (VString "closed") _ _ _ _ _)
            Examples.pr
            [PullsGet (VString "octo") (VString "shop") (VNumber (of_N 7));
             PullsListCommits (VString "octo") (VString "shop") (VNumber (of_N 7))]
            _)).
  - reflexivity.
  - reflexivity.
  - reflexivity.
  - reflexivity.
  - reflexivity.
  - reflexivity.
Defined.

(** C9, the claim fails when the details of the pull request cannot be
    fetched: the event's action is [closed], and [main] throws before it
    looks at the event; nothing is logged but the fatal error, and the
    process exits with 1. *)
Lemma metadata_failure_precedes_the_event_check :
  JSON_parse Examples.offline (Examples.event_text "closed")
  = Return (Examples.event "closed")
  /\ get (Examples.event "closed") "action" = Return (VString "closed")
  /\ main (MainTs.createPrompt Examples.offline) MainTs.request_messages
       Examples.offline []
     = (Throw (mkExn "HttpError" (Some 503%N)),
        [PullsGet (VString "octo") (VString "shop") (VNumber (of_N 7))])
  /\ run (MainTs.createPrompt Examples.offline) MainTs.request_messages
       Examples.offline
     = (1%N,
        [PullsGet (VString "octo") (VString "shop") (VNumber (of_N 7));
         Console (Fatal (mkExn "HttpError" (Some 503%N)))]).
Proof. repeat split. Qed.

(** C4, the claim fails for removed lines. The old side of the hunk starts
    at line 10 and its new side at line 20; the removed line is line 11 of
    the old file and is printed with 11, while the lines of the new file in
    the hunk are 20 and 21. *)
Lemma removed_line_carries_old_file_number :
  Chunk.changes Examples.shifted
  = [ Change.make normal " keep" None (Some 10%N) (Some 20%N);
      Change.make del "-old" (Some 11%N) None None;
      Change.make add "+new" (Some 21%N) None None ]
  /\ diffContent Examples.shifted
     = ("10  keep" ++ nl ++ "11 -old" ++ nl ++ "21 +new")%string
  /\ Spec.oldFileLine 10 [(normal, " keep")] = 11%N
  /\ Spec.newFileLine 20 [(normal, " keep")] = 21%N.
Proof. repeat split. Qed.

(** The lines of the hunk of the examples, as both prompts hold them. *)
Example hunk_lines_are_annotated :
  diffContent Examples.hunk
  = ("4  def total():" ++ nl ++ "5 -    x = 2" ++ nl ++ "5 +    x = 1")%string.
Proof. reflexivity. Qed.

(** C6, the claim's example fails: with the exclusion input [*.md] the
    pattern list is [*.md], and the filter retains [docs/readme.md] (and
    [src/app.ts]): the star of the pattern does not cross the slash. *)
Lemma docs_readme_survives_star_md :
  exclude Examples.no_markdown = " *.md ,,"
  /\ excludePatterns Examples.no_markdown = ["*.md"]
  /\ Minimatch.minimatch "docs/readme.md" "*.md" = Some false
  /\ filteredDiff Examples.no_markdown (excludePatterns Examples.no_markdown)
       [Examples.readme_md; Examples.docs_readme_md; Examples.src_app_ts]
     = [Examples.docs_readme_md; Examples.src_app_ts].
Proof. repeat split; vm_compute; reflexivity. Qed.

(** C6, witness for the examples of the amended claim. *)
Lemma exclusion_filter_witness :
  filteredDiff Examples.no_markdown ["**/*.md"]
    [Examples.readme_md; Examples.docs_readme_md; Examples.src_app_ts]
  = [Examples.src_app_ts].
Proof.
  exact (proj2 (proj2 (proj2 (proj2 (proj2
           (exclusion_filter_drops_matching_paths Examples.no_markdown []))))
           eq_refl)).
Defined.

(** ** Further properties of the code *)

Section Further.

Context {Prompt : Type}.
Variable createPrompt : File.t -> Chunk.t -> PRDetails -> Prompt.
Variable request_messages : Prompt -> list ChatMessage.
Variable env : Env.

Local Abbreviation ask := (getAIResponse request_messages env).
Local Abbreviation chunks_loop :=
  (analyzeCode_chunks createPrompt request_messages env).
Local Abbreviation files_loop :=
  (analyzeCode_files createPrompt request_messages env).
Local Abbreviation analyze := (analyzeCode createPrompt request_messages env).
Local Abbreviation once := (Spec.review createPrompt request_messages env).

(** *** [createReviewComment] *)

(** X1: [createReviewComment] sends one review with the event [COMMENT] and
    never throws. When the platform rejects the review it logs the error,
    and, when the status of the error is 422, that positions or lines are
    invalid; it does not send the review again. *)
Theorem createReviewComment_never_throws (owner repo pull_number : value)
  (commit_id : string) (comments : list Comment) (tr : Trace) :
  let review :=
    {| review_owner := owner; review_repo := repo;
       review_pull_number := pull_number; review_commit_id := commit_id;
       review_comments := comments; review_event := "COMMENT" |} in
  createReviewComment env owner repo pull_number commit_id comments tr
  = (Return tt,
     tr ++ PullsCreateReview review
        :: match pulls_createReview env review with
           | Return _ => []
           | Throw error =>
               Console (ReviewError error)
               :: match exn_status error with
                  | Some 422%N => [Console InvalidPositions]
                  | _ => []
                  end
           end).
Proof.
  cbv zeta. unfold createReviewComment, try_catch, bind, lift, emit, console.
  destruct (pulls_createReview env _) as [[]|error]; [reflexivity |].
  unfold emit, ret. destruct (exn_status error) as [status|].
  - destruct (N.eqb_spec status 422) as [-> | Hother].
    + now rewrite <- !app_assoc.
    + rewrite <- !app_assoc. cbn [app].
      destruct status as [|q]; [reflexivity |].
      repeat (destruct q as [q|q|]; try reflexivity); congruence.
  - now rewrite <- !app_assoc.
Qed.

(** *** [getPRDetails] *)

Lemma get_returns_again (v x : value) (key other : string) :
  get v key = Return x -> exists y, get v other = Return y.
Proof.
  destruct v; cbn; try discriminate; eauto.
  intros _. destruct (own_property other properties); eauto.
Qed.

(** X2: when the payload names the repository and the platform answers,
    [getPRDetails] asks for the pull request and then for its commits, and
    returns the owner, the name and the number of the payload as they are,
    the title and the body of the pull request with the empty text for a
    missing one, and the hash of the last commit of the list. *)
Theorem getPRDetails_takes_the_last_commit (tr : Trace) (text : string)
  (payload repository number account login name : value) (pull : PullRequest)
  (earlier : list Commit) (latest : Commit) :
  event_file env = Return text ->
  JSON_parse env text = Return payload ->
  get payload "repository" = Return repository ->
  get payload "number" = Return number ->
  get repository "owner" = Return account ->
  get account "login" = Return login ->
  get repository "name" = Return name ->
  pulls_get env login name number = Return pull ->
  pulls_listCommits env login name number = Return (earlier ++ [latest]) ->
  getPRDetails env tr
  = (Return {| owner := login;
               repo := name;
               pull_number := number;
               title := match data_title pull with
                        | Some t => t
                        | None => EmptyString
                        end;
               description := match data_body pull with
                              | Some b => b
                              | None => EmptyString
                              end;
               commit_id := sha latest |},
     tr ++ [PullsGet login name number; PullsListCommits login name number]).
Proof.
  intros Hfile Hparse Hrepository Hnumber Howner Hlogin Hname Hpull Hcommits.
  unfold getPRDetails, bind, lift, emit, ret.
  rewrite Hfile, Hparse, Hrepository, Hnumber, Howner, Hlogin, Hname, Hpull, Hcommits.
  rewrite rev_app_distr. cbn [rev app]. now rewrite <- app_assoc.
Qed.

(** X3: a pull request without commits makes [getPRDetails] throw a
    TypeError, after both requests to the platform: there is no last commit
    to read the hash of. *)
Theorem getPRDetails_without_commits_throws (tr : Trace) (text : string)
  (payload repository number account login name : value) (pull : PullRequest) :
  event_file env = Return text ->
  JSON_parse env text = Return payload ->
  get payload "repository" = Return repository ->
  get payload "number" = Return number ->
  get repository "owner" = Return account ->
  get account "login" = Return login ->
  get repository "name" = Return name ->
  pulls_get env login name number = Return pull ->
  pulls_listCommits env login name number = Return [] ->
  getPRDetails env tr
  = (Throw TypeError,
     tr ++ [PullsGet login name number; PullsListCommits login name number]).
Proof.
  intros Hfile Hparse Hrepository Hnumber Howner Hlogin Hname Hpull Hcommits.
  unfold getPRDetails, bind, lift, emit, throw.
  rewrite Hfile, Hparse, Hrepository, Hnumber, Howner, Hlogin, Hname, Hpull, Hcommits.
  cbn [rev]. now rewrite <- app_assoc.
Qed.

(** X4: when the payload of the event has no [repository] (the property is
    missing or [null]), [getPRDetails] throws a TypeError before it asks the
    platform anything, and so does [main]: the run ends with the exit code 1
    and has done nothing but log the error. *)
Theorem getPRDetails_needs_a_repository (text : string)
  (payload repository : value) :
  event_file env = Return text ->
  JSON_parse env text = Return payload ->
  get payload "repository" = Return repository ->
  differs_from_null repository = false ->
  (forall tr, getPRDetails env tr = (Throw TypeError, tr))
  /\ run createPrompt request_messages env = (1%N, [Console (Fatal TypeError)]).
Proof.
  intros Hfile Hparse Hrepository Hnull.
  assert (Hthrows : forall tr, getPRDetails env tr = (Throw TypeError, tr)).
  { intros tr. unfold getPRDetails, bind, lift.
    rewrite Hfile, Hparse, Hrepository.
    destruct (get_returns_again _ _ _ "number" Hrepository) as [number ->].
    destruct repository; try discriminate; reflexivity. }
  split; [exact Hthrows |].
  unfold run, main, bind at 1. rewrite Hthrows. reflexivity.
Qed.

(** *** [getAIResponse] *)

(** X5: a call of [getAIResponse] sends the model one request, whatever the
    answer is: there is no second attempt after a failure. *)
Theorem getAIResponse_sends_one_request (prompt : Prompt) (tr : Trace) :
  requests (snd (ask prompt tr))
  = requests tr ++ [ChatCompletionsCreate (request_messages prompt)].
Proof.
  destruct (getAIResponse_trace request_messages env prompt tr) as (logs & -> & Hlogs).
  rewrite requests_app. cbn [requests filter is_request]. fold (requests logs).
  now rewrite (requests_console _ Hlogs).
Qed.

(** X6: when the model's response holds no choice, reading the finish
    reason of the first choice throws, and so does the handler, which reads
    the first choice again for its log line: [getAIResponse] throws a
    TypeError, nothing is logged, and the loops of [analyzeCode] are left
    with the comments collected so far lost. *)
Theorem empty_choices_abort_the_review (file : File.t) (chunk : Chunk.t)
  (rest : list Chunk.t) (files : list File.t) (prDetails : PRDetails)
  (comments : list Comment) (tr : Trace) (response : Completion.t) :
  chat_completions_create env (List.length (requests tr))
    (request_messages (createPrompt file chunk prDetails))
  = Return response ->
  Completion.choices response = [] ->
  let sent :=
    [ChatCompletionsCreate (request_messages (createPrompt file chunk prDetails))] in
  ask (createPrompt file chunk prDetails) tr = (Throw TypeError, tr ++ sent)
  /\ chunks_loop file (chunk :: rest) prDetails comments tr
     = (Throw TypeError, tr ++ sent)
  /\ (File.to file <> Some "/dev/null" ->
      File.chunks file = chunk :: rest ->
      files_loop (file :: files) prDetails comments tr
      = (Throw TypeError, tr ++ sent)).
Proof.
  intros Hcall Hnone sent.
  assert (Hask : ask (createPrompt file chunk prDetails) tr
                 = (Throw TypeError, tr ++ sent)).
  { unfold getAIResponse, create. rewrite Hcall.
    unfold try_catch, getAIResponse_read. rewrite Hnone.
    unfold throw, getAIResponse_catch, partial_content, bind, lift.
    now rewrite Hnone. }
  assert (Hloop : chunks_loop file (chunk :: rest) prDetails comments tr
                  = (Throw TypeError, tr ++ sent)).
  { cbn [analyzeCode_chunks]. unfold bind. now rewrite Hask. }
  repeat split; [exact Hask | exact Hloop |].
  intros Hto Hchunks. cbn [analyzeCode_files].
  replace (same_string (File.to file) "/dev/null") with false.
  2:{ symmetry. destruct (File.to file) as [s|]; [| reflexivity].
      apply String.eqb_neq. congruence. }
  unfold bind. now rewrite Hchunks, Hloop.
Qed.

(** X7: [getAIResponse] hands back what the parsed text holds under
    [reviews] as it is, without looking at it: the value of the property
    when the text is an object that has it, [undefined] when the text is an
    object without it or is no object; and when the text is [null], reading
    the property throws, which is logged and gives [null]. *)
Theorem getAIResponse_returns_reviews_unchecked (prompt : Prompt) (tr : Trace)
  (choice : Completion.Choice) (others : list Completion.Choice) (parsed : value) :
  chat_completions_create env (List.length (requests tr)) (request_messages prompt)
  = Return {| Completion.choices := choice :: others |} ->
  Completion.finish_reason choice <> "length" ->
  JSON_parse env (response_text choice) = Return parsed ->
  ask prompt tr
  = match parsed with
    | VNull | VUndefined =>
        (Return VNull,
         tr ++ [ChatCompletionsCreate (request_messages prompt);
                Console (ErrorLogged TypeError
                           (match Completion.message choice with
                            | Some m => Completion.content m
                            | None => None
                            end))])
    | VObject properties =>
        (Return (match own_property "reviews" properties with
                 | Some reviews => reviews
                 | None => VUndefined
                 end),
         tr ++ [ChatCompletionsCreate (request_messages prompt)])
    | _ => (Return VUndefined, tr ++ [ChatCompletionsCreate (request_messages prompt)])
    end.
Proof.
  intros Hcall Hfinish Hparse.
  unfold getAIResponse, create. rewrite Hcall.
  unfold try_catch, getAIResponse_read. cbn [Completion.choices].
  apply String.eqb_neq in Hfinish. rewrite Hfinish.
  unfold bind, lift. rewrite Hparse.
  destruct parsed; cbn [get]; try reflexivity.
  - unfold getAIResponse_catch, partial_content, bind, lift, console, emit, ret.
    cbn [Completion.choices]. now rewrite <- app_assoc.
  - unfold getAIResponse_catch, partial_content, bind, lift, console, emit, ret.
    cbn [Completion.choices]. now rewrite <- app_assoc.
  - destruct (own_property "reviews" properties); reflexivity.
Qed.

(** X8: [getAIResponse] throws in one case only: the request was answered
    and the response holds no choice. A rejected request, a response cut at
    the token budget and a text that does not parse are caught and give
    [null]. *)
Theorem getAIResponse_throws_without_choice_only (prompt : Prompt)
  (tr : Trace) (error : exn) (tr' : Trace) :
  ask prompt tr = (Throw error, tr') ->
  error = TypeError
  /\ tr' = tr ++ [ChatCompletionsCreate (request_messages prompt)]
  /\ exists response,
       chat_completions_create env (List.length (requests tr))
         (request_messages prompt) = Return response
       /\ Completion.choices response = [].
Proof.
  unfold getAIResponse, create.
  destruct (chat_completions_create env _ _) as [response|rejection].
  - unfold try_catch, getAIResponse_read.
    destruct (Completion.choices response) as [|choice others] eqn:Hchoices.
    + unfold throw, getAIResponse_catch, partial_content, bind, lift.
      rewrite Hchoices. intros [= <- <-]. repeat split. now exists response.
    + destruct (String.eqb (Completion.finish_reason choice) "length");
        [discriminate |].
      unfold bind, lift.
      destruct (JSON_parse env (response_text choice)) as [parsed|failure].
      * destruct (get parsed "reviews") as [reviews|failure]; [discriminate |].
        unfold getAIResponse_catch, partial_content, bind, lift, console, emit, ret.
        rewrite Hchoices. discriminate.
      * unfold getAIResponse_catch, partial_content, bind, lift, console, emit, ret.
        rewrite Hchoices. discriminate.
  - discriminate.
Qed.

(** *** [createComment] *)

Lemma ToNumber_throws : forall (v : value) (error : exn),
  ToNumber v = Throw error -> error = TypeError.
Proof.
  fix IH 1. intros [ | | b | n | s | elements | properties] error;
    cbn [ToNumber]; try discriminate.
  - destruct elements as [|element [|second others]]; try discriminate.
    + pose proof (IH element error) as IHelement.
      destruct element; try discriminate; exact IHelement.
    + destruct (existsb unprintable _); [now intros [= <-] | discriminate].
  - destruct (unprintable _); [now intros [= <-] | discriminate].
Qed.

Lemma get_throws (v : value) (key : string) (error : exn) :
  get v key = Throw error -> error = TypeError.
Proof.
  destruct v; cbn [get]; try discriminate; try now intros [= <-].
  destruct (own_property key properties); discriminate.
Qed.

(** The loop of [createComment] maps the findings one after the other, each
    to the record of [Mapper.comment_of], and announces each record; it
    stops at the first finding it cannot read, with a TypeError. *)
Lemma createComment_loop_maps (file : File.t) (findings : list value) :
  forall (comments : list Comment) (tr : Trace) (r : result (list Comment))
         (tr' : Trace),
  createComment_loop file findings comments tr = (r, tr') ->
  exists done todo,
    findings = done ++ todo
    /\ tr' = tr ++ map Mapper.announcement (map (Mapper.comment_of file) done)
    /\ match r with
       | Return out =>
           todo = [] /\ out = comments ++ map (Mapper.comment_of file) done
       | Throw error => error = TypeError /\ todo <> []
       end.
Proof.
  induction findings as [|finding rest IH]; intros comments tr r tr' H.
  - injection H as <- <-. exists [], []. cbn [map app]. now rewrite !app_nil_r.
  - cbn [createComment_loop] in H. unfold bind, lift, console, emit in H.
    destruct (get finding "lineNumber") as [token|error] eqn:Htoken.
    2:{ injection H as <- <-. exists [], (finding :: rest).
        cbn [map app]. rewrite app_nil_r.
        repeat split; [exact (get_throws _ _ _ Htoken) | discriminate]. }
    destruct (ToNumber token) as [lineNumber|error] eqn:Hnumber.
    2:{ injection H as <- <-. exists [], (finding :: rest).
        cbn [map app]. rewrite app_nil_r.
        repeat split; [exact (ToNumber_throws _ _ Hnumber) | discriminate]. }
    rewrite number_differs_from_null in H.
    destruct (get_returns_again _ _ _ "reviewComment" Htoken) as [reviewComment Hbody].
    rewrite Hbody in H.
    assert (Hrecord : {| body := reviewComment; path := File.to file;
                         line := lineNumber |}
                      = Mapper.comment_of file finding).
    { unfold Mapper.comment_of, Mapper.field, Mapper.number_of.
      now rewrite Hbody, Htoken, Hnumber. }
    rewrite Hrecord in H.
    replace (Console (Commenting lineNumber (File.to file)))
      with (Mapper.announcement (Mapper.comment_of file finding)) in H
      by (now rewrite <- Hrecord).
    apply IH in H as (done & todo & -> & -> & Hr).
    exists (finding :: done), todo. cbn [map app]. rewrite <- !app_assoc.
    repeat split. destruct r as [out|error]; [| exact Hr].
    destruct Hr as [-> ->]. now rewrite <- app_assoc.
Qed.

(** X9: [createComment] drops no finding. Whatever [reviews] holds, all it
    logs is that it comments on a line of the file (the branch that would
    log a line as not found is never taken), and when it returns it has
    made one record for every element it ran over, in order: the text under
    [reviewComment] as the body, [Number] of what is under [lineNumber] as
    the line, the path of the file as the path. *)
Theorem createComment_keeps_every_finding (file : File.t) (chunk : Chunk.t)
  (findings : value) (tr : Trace) (r : result (list Comment)) (tr' : Trace) :
  createComment file chunk findings tr = (r, tr') ->
  exists logs,
    tr' = tr ++ logs
    /\ Forall (Mapper.is_announcement file) logs
    /\ forall out,
         r = Return out ->
         exists elements,
           iterate findings = Return elements
           /\ out = map (Mapper.comment_of file) elements
           /\ logs = map Mapper.announcement out.
Proof.
  unfold createComment, bind, lift.
  destruct (iterate findings) as [elements|error].
  2:{ intros [= <- <-]. exists []. rewrite app_nil_r.
      repeat split; [constructor | discriminate]. }
  intros H. apply createComment_loop_maps in H as (done & todo & -> & -> & Hr).
  eexists. split; [reflexivity | split].
  - apply Forall_forall. intros ev Hev.
    apply in_map_iff in Hev as (c & <- & Hc).
    apply in_map_iff in Hc as (finding & <- & _).
    eexists. reflexivity.
  - intros out ->. destruct Hr as [-> ->]. rewrite app_nil_r.
    eexists. repeat split.
Qed.

(** X10: on an array of findings that are objects with a primitive value
    under [lineNumber], [createComment] returns: one record for each
    finding, in order, each announced on the console. *)
Theorem shaped_findings_are_all_mapped (file : File.t) (chunk : Chunk.t)
  (findings : list value) (tr : Trace) :
  Forall Spec.finding_shaped findings ->
  createComment file chunk (VArray findings) tr
  = (Return (map (Mapper.comment_of file) findings),
     tr ++ map Mapper.announcement (map (Mapper.comment_of file) findings)).
Proof.
  intros Hshaped. unfold createComment, bind, lift. cbn [iterate].
  destruct (createComment_loop_returns file findings Hshaped [] tr) as (out & tr' & H).
  rewrite H.
  apply createComment_loop_maps in H as (done & todo & -> & -> & -> & ->).
  now rewrite app_nil_r.
Qed.

Lemma createComment_loop_characters (file : File.t) (characters : list string) :
  forall (comments : list Comment) (tr : Trace),
  createComment_loop file (map VString characters) comments tr
  = (Return (comments
             ++ map (fun _ => {| body := VUndefined; path := File.to file;
                                 line := NaN |}) characters),
     tr ++ map (fun _ => Console (Commenting NaN (File.to file))) characters).
Proof.
  induction characters as [|c rest IH]; intros comments tr.
  - cbn [map createComment_loop]. unfold ret. now rewrite !app_nil_r.
  - cbn [map createComment_loop]. unfold bind, lift, console, emit.
    cbn [get ToNumber]. rewrite number_differs_from_null, IH, <- !app_assoc.
    reflexivity.
Qed.

(** X11: when [reviews] is a text, [createComment] runs over its
    characters (code points) and makes a record for each: the body is
    [undefined] and the line [NaN], since a character has neither a
    [lineNumber] nor a [reviewComment]. *)
Theorem text_reviews_give_a_record_per_character (file : File.t)
  (chunk : Chunk.t) (text : string) (tr : Trace) :
  createComment file chunk (VString text) tr
  = (Return (map (fun _ => {| body := VUndefined; path := File.to file;
                              line := NaN |}) (codepoints text)),
     tr ++ map (fun _ => Console (Commenting NaN (File.to file)))
               (codepoints text)).
Proof.
  unfold createComment, bind, lift. cbn [iterate].
  now rewrite createComment_loop_characters.
Qed.

(** *** [analyzeCode] *)

(** X12: [analyzeCode] hands every truthy value under [reviews] to
    [createComment], whose loop runs over arrays and texts only: a value
    that is [true], a number other than zero and [NaN], or an object makes
    [createComment] throw a TypeError, and the loops of [analyzeCode] are
    left with it. *)
Theorem unlistable_reviews_abort_the_review (file : File.t) (chunk : Chunk.t)
  (rest : list Chunk.t) (files : list File.t) (prDetails : PRDetails)
  (comments : list Comment) (tr tr' : Trace) (findings : value) :
  ask (createPrompt file chunk prDetails) tr = (Return findings, tr') ->
  truthy findings = true ->
  match findings with VArray _ | VString _ => False | _ => True end ->
  createComment file chunk findings tr' = (Throw TypeError, tr')
  /\ chunks_loop file (chunk :: rest) prDetails comments tr = (Throw TypeError, tr')
  /\ (File.to file <> Some "/dev/null" ->
      File.chunks file = chunk :: rest ->
      files_loop (file :: files) prDetails comments tr = (Throw TypeError, tr')).
Proof.
  intros Hask Htruthy Hshape.
  assert (Hmap : createComment file chunk findings tr' = (Throw TypeError, tr')).
  { destruct findings; try contradiction; reflexivity. }
  assert (Hloop : chunks_loop file (chunk :: rest) prDetails comments tr
                  = (Throw TypeError, tr')).
  { cbn [analyzeCode_chunks]. unfold bind at 1. rewrite Hask, Htruthy.
    unfold bind. now rewrite Hmap. }
  repeat split; [exact Hmap | exact Hloop |].
  intros Hto Hchunks. cbn [analyzeCode_files].
  replace (same_string (File.to file) "/dev/null") with false.
  2:{ symmetry. destruct (File.to file) as [s|]; [| reflexivity].
      apply String.eqb_neq. congruence. }
  unfold bind. now rewrite Hchunks, Hloop.
Qed.

Lemma reviews_paths (prDetails : PRDetails) (visited : list (File.t * Chunk.t)) :
  forall (tr : Trace) (out : list Comment) (tr' : Trace),
  Spec.concat_in_order (map (once prDetails) visited) tr = (Return out, tr') ->
  Forall (fun c => exists pair, In pair visited /\ path c = File.to (fst pair)) out.
Proof.
  induction visited as [|visit rest IH]; intros tr out tr' H.
  - cbn in H. injection H as <- _. constructor.
  - cbn [map Spec.concat_in_order] in H. unfold bind at 1 in H.
    destruct (once prDetails visit tr) as [[new|error] tr1] eqn:Hvisit;
      [| discriminate].
    unfold bind, ret in H.
    destruct (Spec.concat_in_order _ tr1) as [[others|error] tr2] eqn:Hrest;
      [| discriminate].
    injection H as <- _. apply Forall_app. split.
    + unfold Spec.review, bind in Hvisit.
      destruct (ask _ tr) as [[findings|error] tr0]; [| discriminate].
      destruct (truthy findings).
      * destruct (createComment_outcome (fst visit) (snd visit) findings tr0)
          as (_ & _ & _ & Hout).
        rewrite Hvisit in Hout. destruct (Hout new eq_refl) as (_ & _ & _ & Hpath).
        eapply Forall_impl; [| exact Hpath].
        intros c Hc. exists visit. split; [now left | exact Hc].
      * injection Hvisit as <- _. constructor.
    + eapply Forall_impl; [| exact (IH _ _ _ Hrest)].
      intros c (pair & Hin & Hc). exists pair. split; [now right | exact Hc].
Qed.

(** X13: every comment [analyzeCode] returns carries the path of a file of
    its input that has a chunk and is no deletion: no comment is anchored to
    [/dev/null], and none to a file that is not in the diff it was given. *)
Theorem comments_are_anchored_to_reviewed_files (prDetails : PRDetails)
  (parsedDiff : list File.t) (tr : Trace) (comments : list Comment) (tr' : Trace) :
  analyze parsedDiff prDetails tr = (Return comments, tr') ->
  Forall (fun c =>
            path c <> Some "/dev/null"
            /\ exists file,
                 In file parsedDiff /\ File.chunks file <> []
                 /\ path c = File.to file)
         comments.
Proof.
  rewrite analyzeCode_reviews. intros H. apply reviews_paths in H.
  eapply Forall_impl; [| exact H].
  intros c ([file chunk] & Hin & Hc). cbn [fst] in Hc.
  apply in_pairs in Hin as [Hfile Hchunk].
  apply filter_In in Hfile as [Hfile Hkept]. split.
  - rewrite Hc. intros Hto. unfold Spec.isDeletion in Hkept.
    rewrite Hto in Hkept. discriminate.
  - exists file. repeat split; [exact Hfile | | exact Hc].
    intros Hnone. now rewrite Hnone in Hchunk.
Qed.

Lemma analyzeCode_files_idle (prDetails : PRDetails) (parsedDiff : list File.t) :
  Forall (fun file => File.to file = Some "/dev/null" \/ File.chunks file = [])
         parsedDiff ->
  forall (comments : list Comment) (tr : Trace),
  files_loop parsedDiff prDetails comments tr = (Return comments, tr).
Proof.
  induction 1 as [|file rest Hfile _ IH]; intros comments tr; [reflexivity |].
  cbn [analyzeCode_files].
  destruct (same_string (File.to file) "/dev/null") eqn:Hdeleted; [apply IH |].
  destruct Hfile as [Hto | Hnone].
  - rewrite Hto in Hdeleted. discriminate.
  - rewrite Hnone. cbn [analyzeCode_chunks]. unfold bind, ret. apply IH.
Qed.

(** X14: a diff whose files are all deletions or have no chunk (a rename, a
    mode change, a binary file) sends the model nothing: [analyzeCode]
    returns no comment and leaves no trace. *)
Theorem nothing_to_review_sends_nothing (prDetails : PRDetails)
  (parsedDiff : list File.t) (tr : Trace) :
  Forall (fun file => File.to file = Some "/dev/null" \/ File.chunks file = [])
         parsedDiff ->
  analyze parsedDiff prDetails tr = (Return [], tr).
Proof.
  intros H. unfold analyzeCode. now apply analyzeCode_files_idle.
Qed.

(** *** [main] *)

Lemma requests_announcements (comments : list Comment) :
  requests (map Mapper.announcement comments) = [].
Proof. induction comments as [|c rest IH]; [reflexivity | exact IH]. Qed.

(** One pair whose request is answered as asked. *)
Lemma review_answered (prDetails : PRDetails) (visit : File.t * Chunk.t)
  (found : list value) (tr : Trace) :
  Run.answers_with env (List.length (requests tr))
    (request_messages (createPrompt (fst visit) (snd visit) prDetails)) found ->
  Forall Spec.finding_shaped found ->
  once prDetails visit tr
  = (Return (map (Mapper.comment_of (fst visit)) found),
     tr ++ Spec.request createPrompt request_messages prDetails visit
        :: map Mapper.announcement (map (Mapper.comment_of (fst visit)) found)).
Proof.
  intros (choice & others & properties & Hcall & Hfinish & Hparse & Hreviews) Hshaped.
  unfold Spec.review, bind at 1.
  assert (Hask : ask (createPrompt (fst visit) (snd visit) prDetails) tr
                 = (Return (VArray found),
                    tr ++ [Spec.request createPrompt request_messages prDetails visit])).
  { unfold getAIResponse, create. rewrite Hcall.
    unfold try_catch, getAIResponse_read. cbn [Completion.choices].
    apply String.eqb_neq in Hfinish. rewrite Hfinish.
    unfold bind, lift. rewrite Hparse. cbn [get]. now rewrite Hreviews. }
  rewrite Hask. cbn [truthy]. unfold createComment, bind, lift. cbn [iterate].
  destruct (createComment_loop_returns (fst visit) found Hshaped []
              (tr ++ [Spec.request createPrompt request_messages prDetails visit]))
    as (out & tr' & H).
  rewrite H.
  apply createComment_loop_maps in H as (done & todo & -> & -> & -> & ->).
  now rewrite app_nil_r, <- app_assoc.
Qed.

Lemma reviews_answered (prDetails : PRDetails) (visited : list (File.t * Chunk.t)) :
  forall (findings : list (list value)) (tr : Trace),
  Run.all_answered createPrompt request_messages env prDetails
    (List.length (requests tr)) visited findings ->
  Spec.concat_in_order (map (once prDetails) visited) tr
  = (Return (Run.comments_of visited findings),
     tr ++ Run.events_of createPrompt request_messages prDetails visited findings).
Proof.
  induction visited as [|visit rest IH]; intros [|found findings] tr H;
    try contradiction.
  - cbn. now rewrite app_nil_r.
  - destruct H as (Hanswer & Hshaped & Hrest).
    cbn [map Spec.concat_in_order]. unfold bind at 1.
    rewrite (review_answered _ _ _ _ Hanswer Hshaped).
    unfold bind, ret. rewrite (IH findings).
    + unfold Run.comments_of, Run.events_of. cbn [combine flat_map fst snd].
      now rewrite <- app_assoc.
    + rewrite requests_app. cbn [requests filter Spec.request is_request].
      fold (requests (map Mapper.announcement
                        (map (Mapper.comment_of (fst visit)) found))).
      rewrite requests_announcements, length_app. cbn [List.length].
      now rewrite Nat.add_1_r.
Qed.

(** X20: when the model answers every request as asked (a response that is
    not cut off and whose text holds an array of findings under [reviews],
    each finding an object with a primitive [lineNumber]), [analyzeCode]
    returns: it sends one request for each chunk of each file that is no
    deletion, in order, logs one line for each finding behind the request
    of its chunk, and returns one comment for each finding, in the order
    of the chunks and, within a chunk, of the findings. *)
Theorem answered_review_maps_every_finding (prDetails : PRDetails)
  (parsedDiff : list File.t) (findings : list (list value)) (tr : Trace) :
  let visited :=
    Spec.pairs (filter (fun f => negb (Spec.isDeletion f)) parsedDiff) in
  Run.all_answered createPrompt request_messages env prDetails
    (List.length (requests tr)) visited findings ->
  analyze parsedDiff prDetails tr
  = (Return (Run.comments_of visited findings),
     tr ++ Run.events_of createPrompt request_messages prDetails visited findings).
Proof.
  cbv zeta. intros H. rewrite analyzeCode_reviews. now apply reviews_answered.
Qed.

(** X15: when the [exclude] input holds nothing between its commas but
    white space (the empty input is such), there is no pattern, and the
    filter of [main] keeps every file of the diff: no empty pattern is
    handed to [minimatch]. *)
Theorem blank_exclude_keeps_every_file (parsedDiff : list File.t) :
  (forall piece, In piece (split "," (exclude env)) -> blank piece = true) ->
  excludePatterns env = []
  /\ filteredDiff env (excludePatterns env) parsedDiff = parsedDiff.
Proof.
  intros Hblank.
  assert (Hnone : excludePatterns env = []).
  { unfold excludePatterns.
    induction (split "," (exclude env)) as [|piece pieces IH]; [reflexivity |].
    cbn [map filter]. rewrite (trim_blank piece) by (apply Hblank; now left).
    cbn [nonempty]. apply IH. intros other Hother. apply Hblank. now right. }
  split; [exact Hnone |]. rewrite Hnone. unfold filteredDiff, excluded.
  cbn [existsb negb]. induction parsedDiff as [|file rest IH]; [reflexivity |].
  cbn [filter]. now rewrite IH.
Qed.

(** A run is in phases: it fetches the details of the pull request; then
    it stops, or fetches the diff and reviews, or fetches, reviews and
    submits. *)
Lemma main_phases (r : result unit) (tr : Trace) :
  main createPrompt request_messages env [] = (r, tr) ->
  exists fetched rest,
    tr = fetched ++ rest
    /\ forallb is_metadata_fetch fetched = true
    /\ Run.Shape r rest.
Proof.
  unfold main, bind at 1.
  destruct (getPRDetails_trace env []) as (fetched & Htr0 & Hfetched).
  destruct (getPRDetails env []) as [[prDetails|error] tr0];
    cbn [snd app] in Htr0; subst tr0.
  2:{ intros [= <- <-]. exists fetched, []. rewrite app_nil_r.
      repeat split; [exact Hfetched | now apply Run.stopped]. }
  unfold getDiff, bind, lift, emit.
  destruct (event_file env) as [text|error].
  2:{ intros [= <- <-]. exists fetched, []. rewrite app_nil_r.
      repeat split; [exact Hfetched | now apply Run.stopped]. }
  destruct (JSON_parse env text) as [event|error].
  2:{ intros [= <- <-]. exists fetched, []. rewrite app_nil_r.
      repeat split; [exact Hfetched | now apply Run.stopped]. }
  destruct (get event "action") as [action|error].
  2:{ intros [= <- <-]. exists fetched, []. rewrite app_nil_r.
      repeat split; [exact Hfetched | now apply Run.stopped]. }
  destruct (strictly_equals_string action "opened"
            || strictly_equals_string action "synchronize").
  2:{ unfold console, emit. intros [= <- <-]. eexists fetched, [_].
      repeat split; [exact Hfetched | now apply Run.stopped]. }
  destruct (pulls_get_diff env _ _ _) as [diff|error].
  2:{ intros [= <- <-]. eexists fetched, [_].
      repeat split; [exact Hfetched | now apply Run.reviewed]. }
  assert (Hquiet : forall r tr,
            console NoDiffFound
              (fetched ++ [PullsGetDiff (owner prDetails) (repo prDetails)
                             (pull_number prDetails)]) = (r, tr) ->
            exists fetched rest,
              tr = fetched ++ rest
              /\ forallb is_metadata_fetch fetched = true
              /\ Run.Shape r rest).
  { unfold console, emit. intros r0 tr0 [= <- <-]. eexists fetched, [_; _].
    rewrite <- app_assoc.
    repeat split; [exact Hfetched | now apply Run.reviewed]. }
  destruct diff as [[|c diff]|]; [exact (Hquiet r tr) | | exact (Hquiet r tr)].
  clear Hquiet.
  destruct (parseDiff env _) as [parsedDiff|error].
  2:{ intros [= <- <-]. eexists fetched, [_].
      repeat split; [exact Hfetched | now apply Run.reviewed]. }
  destruct (analyzeCode createPrompt request_messages env _ prDetails _)
    as [outcome tr1] eqn:Hrun.
  apply analyzeCode_trace in Hrun as (evs & -> & Hevs).
  destruct outcome as [[|comment comments]|error].
  - unfold console, emit. intros [= <- <-].
    exists fetched, (PullsGetDiff (owner prDetails) (repo prDetails)
                       (pull_number prDetails) :: evs ++ [Console NoComments]).
    rewrite <- !app_assoc. repeat split; [exact Hfetched |].
    apply Run.reviewed; [reflexivity |]. now rewrite forallb_app, Hevs.
  - match goal with
    | |- context [createReviewComment env ?o ?r ?n ?c ?cs ?t] =>
        destruct (createReviewComment_outcome env o r n c cs t) as (logs & -> & Hlogs)
    end.
    intros [= <- <-]. eexists fetched, (_ :: evs ++ _ :: logs).
    rewrite <- !app_assoc. repeat split; [exact Hfetched |].
    now apply Run.submitted.
  - intros [= <- <-]. eexists fetched, (_ :: evs).
    rewrite <- !app_assoc. repeat split; [exact Hfetched |].
    now apply Run.reviewed.
Qed.

Lemma shape_submissions (r : result unit) (rest : Trace) :
  Run.Shape r rest ->
  match r with
  | Return _ => List.length (submissions rest) <= 1
  | Throw _ => submissions rest = []
  end.
Proof.
  intros [r0 logs Hlogs | r0 fetch reviews Hfetch Hreviews
          | fetch reviews submission logs Hfetch Hreviews Hsubmission Hlogs].
  - rewrite (submissions_review_events _ (console_review_events _ Hlogs)).
    destruct r0; cbn; auto.
  - cbn [submissions filter]. fold (submissions reviews).
    rewrite (submissions_review_events _ Hreviews).
    destruct fetch; try discriminate. destruct r0; cbn; auto.
  - cbn [submissions filter]. fold (submissions (reviews ++ submission :: logs)).
    rewrite submissions_app, (submissions_review_events _ Hreviews).
    cbn [app submissions filter]. fold (submissions logs).
    rewrite (submissions_review_events _ (console_review_events _ Hlogs)).
    destruct fetch; try discriminate. destruct submission; try discriminate.
    cbn. lia.
Qed.

(** X17: the events of every run come in this order: the two requests for
    the details of the pull request (or fewer, when one fails); then
    nothing but log lines, or the request for the diff followed by requests
    to the model and log lines; then, in a run that returns, at most one
    submission followed by log lines. So no request goes to the model
    before the diff was asked for or after the review was submitted. *)
Theorem main_runs_in_phases :
  exists fetched rest,
    snd (main createPrompt request_messages env []) = fetched ++ rest
    /\ forallb is_metadata_fetch fetched = true
    /\ Run.Shape (fst (main createPrompt request_messages env [])) rest.
Proof.
  destruct (main createPrompt request_messages env []) as [r tr] eqn:Hmain.
  exact (main_phases r tr Hmain).
Qed.

(** X18: a run that ends with the exit code 1 has submitted no review: the
    submission is the last step of [main], and [createReviewComment] catches
    what the platform answers. *)
Theorem failed_run_has_submitted_nothing (tr : Trace) :
  run createPrompt request_messages env = (1%N, tr) ->
  submissions tr = []
  /\ exists error before,
       tr = before ++ [Console (Fatal error)]
       /\ main createPrompt request_messages env [] = (Throw error, before).
Proof.
  unfold run.
  destruct (main createPrompt request_messages env []) as [[[]|error] tr0] eqn:Hmain;
    [discriminate |].
  intros [= <-]. split; [| now exists error, tr0].
  apply main_phases in Hmain as (fetched & rest & -> & Hfetched & Hshape).
  apply shape_submissions in Hshape.
  destruct (submissions_metadata _ Hfetched) as (Hnone & _ & _).
  now rewrite !submissions_app, Hnone, Hshape.
Qed.

(** X19: when the platform has no diff for the pull request ([null] or the
    empty text), [main] logs that no diff was found and returns: the diff is
    not parsed, the model is not asked and nothing is submitted. *)
Theorem missing_diff_ends_the_run (prDetails : PRDetails) (fetched : Trace)
  (text : string) (event action : value) (diff : option string) :
  getPRDetails env [] = (Return prDetails, fetched) ->
  event_file env = Return text ->
  JSON_parse env text = Return event ->
  get event "action" = Return action ->
  strictly_equals_string action "opened"
  || strictly_equals_string action "synchronize" = true ->
  pulls_get_diff env (owner prDetails) (repo prDetails) (pull_number prDetails)
  = Return diff ->
  diff = None \/ diff = Some EmptyString ->
  run createPrompt request_messages env
  = (0%N,
     fetched
     ++ [PullsGetDiff (owner prDetails) (repo prDetails) (pull_number prDetails);
         Console NoDiffFound]).
Proof.
  intros Hpr Hfile Hevent Haction Hsupported Hdiff Hmissing.
  unfold run, main, bind at 1. rewrite Hpr.
  unfold getDiff, bind, lift, emit.
  rewrite Hfile, Hevent, Haction, Hsupported, Hdiff.
  unfold console, emit.
  destruct Hmissing as [-> | ->]; now rewrite <- app_assoc.
Qed.

End Further.

(** ** The further properties at work *)

(** X2, witness: the pull request has two commits; the hash is that of the
    second, and the missing body gives the empty description. *)
Lemma last_commit_witness :
  getPRDetails Cases.usual [] = (Return Cases.details, Cases.fetched).
Proof.
  exact (getPRDetails_takes_the_last_commit Cases.usual [] Cases.payload_text
           (Examples.event "opened")
           (VObject [("name", VString "shop");
                     ("owner", VObject [("login", VString "octo")])])
           (VNumber (of_N 7)) (VObject [("login", VString "octo")])
           (VString "octo") (VString "shop")
           {| data_title := Some "Add totals"; data_body := None |}
           [ {| sha := "9f2c1d" |} ] {| sha := "abc123" |}
           eq_refl eq_refl eq_refl eq_refl eq_refl eq_refl eq_refl eq_refl eq_refl).
Defined.

(** X3, witness: the list of commits is empty. *)
Lemma no_commit_witness :
  getPRDetails Cases.no_commits [] = (Throw TypeError, Cases.fetched).
Proof.
  exact (getPRDetails_without_commits_throws Cases.no_commits [] Cases.payload_text
           (Examples.event "opened")
           (VObject [("name", VString "shop");
                     ("owner", VObject [("login", VString "octo")])])
           (VNumber (of_N 7)) (VObject [("login", VString "octo")])
           (VString "octo") (VString "shop")
           {| data_title := Some "Add totals"; data_body := None |}
           eq_refl eq_refl eq_refl eq_refl eq_refl eq_refl eq_refl eq_refl eq_refl).
Defined.

(** X4, witness: the payload holds an action and nothing else. *)
Lemma no_repository_witness :
  run (MainTs.createPrompt Cases.bare) MainTs.request_messages Cases.bare
  = (1%N, [Console (Fatal TypeError)]).
Proof.
  exact (proj2
           (getPRDetails_needs_a_repository
              (MainTs.createPrompt Cases.bare) MainTs.request_messages Cases.bare
              Cases.bare_text (VObject [("action", VString "opened")]) VUndefined
              eq_refl eq_refl eq_refl eq_refl)).
Defined.

(** X6, witness: the model answers with an empty list of choices. *)
Lemma no_choice_witness :
  analyzeCode_files (MainTs.createPrompt Cases.no_choice) MainTs.request_messages
    Cases.no_choice [Examples.a_py] Cases.details [] Cases.fetched
  = (Throw TypeError, Cases.fetched ++ [Cases.request Cases.no_choice]).
Proof.
  refine (proj2 (proj2
            (empty_choices_abort_the_review
               (MainTs.createPrompt Cases.no_choice) MainTs.request_messages
               Cases.no_choice Examples.a_py Examples.hunk [] [] Cases.details []
               Cases.fetched {| Completion.choices := [] |} eq_refl eq_refl))
            _ eq_refl).
  discriminate.
Defined.

(** X7, witness: the text of the model is [null]. *)
Lemma null_answer_witness :
  getAIResponse MainTs.request_messages Cases.null_answer
    (MainTs.createPrompt Cases.null_answer Examples.a_py Examples.hunk Cases.details)
    []
  = (Return VNull,
     [Cases.request Cases.null_answer;
      Console (ErrorLogged TypeError (Some "null"))]).
Proof.
  refine (getAIResponse_returns_reviews_unchecked
            MainTs.request_messages Cases.null_answer
            (MainTs.createPrompt Cases.null_answer Examples.a_py Examples.hunk
               Cases.details)
            []
            {| Completion.finish_reason := "stop";
               Completion.message := Some {| Completion.content := Some "null" |} |}
            [] VNull eq_refl _ eq_refl).
  discriminate.
Defined.

(** X12, witness: the model puts an object under [reviews]. *)
Lemma object_reviews_witness :
  analyzeCode_chunks (MainTs.createPrompt Cases.object_reviews)
    MainTs.request_messages Cases.object_reviews
    Examples.a_py [Examples.hunk] Cases.details [] Cases.fetched
  = (Throw TypeError, Cases.fetched ++ [Cases.request Cases.object_reviews]).
Proof.
  exact (proj1 (proj2
           (unlistable_reviews_abort_the_review
              (MainTs.createPrompt Cases.object_reviews) MainTs.request_messages
              Cases.object_reviews Examples.a_py Examples.hunk [] []
              Cases.details [] Cases.fetched
              (Cases.fetched ++ [Cases.request Cases.object_reviews])
              (VObject []) eq_refl eq_refl I))).
Defined.

(** X9, witness: a finding whose line is written as a text. *)
Lemma every_finding_witness :
  exists logs,
    [Console (Commenting (of_N 12) (Some "a.py"))] = [] ++ logs
    /\ Forall (Mapper.is_announcement Examples.a_py) logs.
Proof.
  destruct (createComment_keeps_every_finding Examples.a_py Examples.hunk
              (VArray [Examples.finding (VString "12") (VString "Rename this.")])
              []
              (Return [ {| body := VString "Rename this."; path := Some "a.py";
                           line := of_N 12 |} ])
              [Console (Commenting (of_N 12) (Some "a.py"))]
              eq_refl) as (logs & Htr & Hlogs & _).
  exists logs. split; [exact Htr | exact Hlogs].
Defined.

(** X10, witness: two findings, the second without a comment. *)
Lemma shaped_findings_witness :
  createComment Examples.a_py Examples.hunk
    (VArray [Examples.finding (VNumber (of_N 5)) (VString "Rename this.");
             VObject [("lineNumber", VString "7")]])
    []
  = (Return [ {| body := VString "Rename this."; path := Some "a.py";
                 line := of_N 5 |};
              {| body := VUndefined; path := Some "a.py"; line := of_N 7 |} ],
     [Console (Commenting (of_N 5) (Some "a.py"));
      Console (Commenting (of_N 7) (Some "a.py"))]).
Proof.
  refine (shaped_findings_are_all_mapped Examples.a_py Examples.hunk
            [Examples.finding (VNumber (of_N 5)) (VString "Rename this.");
             VObject [("lineNumber", VString "7")]]
            [] _).
  constructor; [| constructor; [| constructor]].
  - exists [("lineNumber", VNumber (of_N 5)); ("reviewComment", VString "Rename this.")],
           (VNumber (of_N 5)).
    repeat split.
  - exists [("lineNumber", VString "7")], (VString "7"). repeat split.
Defined.

(** X13, witness: the comment of the usual run is anchored to [a.py]. *)
Lemma anchored_comment_witness :
  Forall (fun c =>
            path c <> Some "/dev/null"
            /\ exists file,
                 In file [Examples.removed; Examples.a_py]
                 /\ File.chunks file <> [] /\ path c = File.to file)
    [ {| body := VString "Use a named constant instead of a magic number.";
         path := Some "a.py"; line := of_N 5 |} ].
Proof.
  refine (comments_are_anchored_to_reviewed_files
            (MainTs.createPrompt Cases.usual) MainTs.request_messages Cases.usual
            Cases.details [Examples.removed; Examples.a_py] Cases.fetched
            _
            (Cases.fetched
             ++ [Cases.request Cases.usual;
                 Console (Commenting (of_N 5) (Some "a.py"))])
            _).
  vm_compute. reflexivity.
Defined.

(** X14, witness: a removed file and a renamed one. *)
Lemma nothing_to_review_witness :
  analyzeCode (MainTs.createPrompt Cases.nothing_to_review)
    MainTs.request_messages Cases.nothing_to_review
    [Examples.removed; File.make (Some "moved.py") []] Cases.details Cases.fetched
  = (Return [], Cases.fetched).
Proof.
  refine (nothing_to_review_sends_nothing
            (MainTs.createPrompt Cases.nothing_to_review) MainTs.request_messages
            Cases.nothing_to_review Cases.details
            [Examples.removed; File.make (Some "moved.py") []] Cases.fetched _).
  constructor; [left; reflexivity |].
  constructor; [right; reflexivity | constructor].
Defined.

(** X8, witness: the model answers with an empty list of choices. *)
Lemma throws_without_choice_witness :
  exists response,
    chat_completions_create Cases.no_choice 0
      (MainTs.request_messages
         (MainTs.createPrompt Cases.no_choice Examples.a_py Examples.hunk
            Cases.details))
    = Return response
    /\ Completion.choices response = [].
Proof.
  exact (proj2 (proj2
           (getAIResponse_throws_without_choice_only
              MainTs.request_messages Cases.no_choice
              (MainTs.createPrompt Cases.no_choice Examples.a_py Examples.hunk
                 Cases.details)
              [] TypeError [Cases.request Cases.no_choice] eq_refl))).
Defined.

(** X15, witness: the input holds two commas, blanks and a newline. *)
Lemma blank_exclude_witness :
  excludePatterns Cases.blank_exclusions = []
  /\ filteredDiff Cases.blank_exclusions (excludePatterns Cases.blank_exclusions)
       [Examples.readme_md; Examples.a_py]
     = [Examples.readme_md; Examples.a_py].
Proof.
  refine (blank_exclude_keeps_every_file Cases.blank_exclusions
            [Examples.readme_md; Examples.a_py] _).
  intros piece [<- | [<- | [<- | []]]]; reflexivity.
Defined.

(** X18, witness: the model answers with an empty list of choices; the run
    fails and nothing was submitted. *)
Lemma failed_run_witness :
  run (MainTs.createPrompt Cases.no_choice) MainTs.request_messages Cases.no_choice
  = (1%N,
     Cases.fetched
     ++ [Cases.fetch; Cases.request Cases.no_choice; Console (Fatal TypeError)])
  /\ submissions
       (Cases.fetched
        ++ [Cases.fetch; Cases.request Cases.no_choice; Console (Fatal TypeError)])
     = [].
Proof.
  assert (H : run (MainTs.createPrompt Cases.no_choice) MainTs.request_messages
                Cases.no_choice
              = (1%N,
                 Cases.fetched
                 ++ [Cases.fetch; Cases.request Cases.no_choice;
                     Console (Fatal TypeError)])).
  { vm_compute. reflexivity. }
  split; [exact H |].
  exact (proj1 (failed_run_has_submitted_nothing
                  (MainTs.createPrompt Cases.no_choice) MainTs.request_messages
                  Cases.no_choice _ H)).
Defined.

(** X19, witness: the platform answers the request for the diff with
    [null]. *)
Lemma missing_diff_witness :
  run (MainTs.createPrompt Cases.no_diff) MainTs.request_messages Cases.no_diff
  = (0%N, Cases.fetched ++ [Cases.fetch; Console NoDiffFound]).
Proof.
  refine (missing_diff_ends_the_run
            (MainTs.createPrompt Cases.no_diff) MainTs.request_messages Cases.no_diff
            Cases.details Cases.fetched Cases.payload_text
            (Examples.event "opened") (VString "opened") None
            eq_refl eq_refl eq_refl eq_refl eq_refl eq_refl _).
  now left.
Defined.

(** The platform rejects the review with the status 422: both lines are
    logged and the run ends well. *)
Example rejected_review_is_logged :
  run (MainTs.createPrompt Cases.rejecting) MainTs.request_messages Cases.rejecting
  = (0%N,
     Cases.fetched
     ++ [Cases.fetch; Cases.request Cases.rejecting;
         Console (Commenting (of_N 5) (Some "a.py"));
         PullsCreateReview
           {| review_owner := VString "octo"; review_repo := VString "shop";
              review_pull_number := VNumber (of_N 7); review_commit_id := "abc123";
              review_comments :=
                [ {| body := VString "Use a named constant instead of a magic number.";
                     path := Some "a.py"; line := of_N 5 |} ];
              review_event := "COMMENT" |};
         Console (ReviewError (mkExn "HttpError" (Some 422%N)));
         Console InvalidPositions]).
Proof. vm_compute. reflexivity. Qed.

(** X20, witness: the diff removes a file and changes [a.py]; the model
    reports one finding for the chunk of [a.py]. *)
Lemma answered_review_witness :
  analyzeCode (MainTs.createPrompt Cases.usual) MainTs.request_messages Cases.usual
    [Examples.removed; Examples.a_py] Cases.details Cases.fetched
  = (Return [ {| body := VString "Use a named constant instead of a magic number.";
                 path := Some "a.py"; line := of_N 5 |} ],
     Cases.fetched
     ++ [Cases.request Cases.usual; Console (Commenting (of_N 5) (Some "a.py"))]).
Proof.
  refine (answered_review_maps_every_finding
            (MainTs.createPrompt Cases.usual) MainTs.request_messages Cases.usual
            Cases.details [Examples.removed; Examples.a_py]
            [[Examples.finding (VNumber (of_N 5))
                (VString "Use a named constant instead of a magic number.")]]
            Cases.fetched _).
  split; [| split; [| exact I]].
  - exists {| Completion.finish_reason := "stop";
              Completion.message :=
                Some {| Completion.content := Some Examples.reviews_text |} |},
           [],
           [("reviews",
             VArray [Examples.finding (VNumber (of_N 5))
                       (VString "Use a named constant instead of a magic number.")])].
    split; [reflexivity | split; [discriminate | split; reflexivity]].
  - constructor; [| constructor].
    exists [("lineNumber", VNumber (of_N 5));
            ("reviewComment",
             VString "Use a named constant instead of a magic number.")],
           (VNumber (of_N 5)).
    repeat split.
Defined.
